(** * Delay-comix: the panel compositing engine

    A shallow embedding of the bubble compositor of the comic authoring
    tool: the raster compositor ([src/utils/downloadUtils.ts]), the
    interactive overlay ([ComicPanel]), the live preview, the
    quick-position action and the Clear button of the panel editor
    ([PanelEditor]), the panels of the application state ([App]:
    [createPanels], [updatePanel], the state update of
    [handleGenerateScript], [handleDownloadAll]) and the retry loops of the
    generation service ([generateComicScript], [generatePanelImage]).

    Conventions of the embedding.
    - A JavaScript number is an exact rational ([Q]); computed values are
      compared with [==].  [canvas.width] and [canvas.height] are integers.
    - A JavaScript string is a [string]: a sequence of code units, here the
      code units below 256.
    - The 2D context is a trace: every fill or stroke of the source appends
      one [DrawOp] carrying the geometry it was called with.
    - [ctx.measureText] is a parameter: the advance width of a string under
      the bold comic font of a given pixel size.
    - A retry loop is run against the answers of the service, one per
      attempt; it yields what it returned or threw, the number of requests
      and the pauses between them. *)

From Stdlib Require Import ZArith QArith Qminmax Qround Lqa Lia.
From Stdlib Require Import Bool List Ascii String.
From Stdlib Require DecimalString DecimalZ.
Import ListNotations.

Open Scope string_scope.
Open Scope Q_scope.

(** ** JavaScript string primitives *)

Module JsString.

(** [s.split(' ')]: cut at every space; never the empty array. *)
Fixpoint split (s : string) : list string :=
  match s with
  | EmptyString => [EmptyString]
  | String c s' =>
      if Ascii.eqb c " "%char then EmptyString :: split s'
      else match split s' with
           | [] => [String c EmptyString]
           | w :: ws => String c w :: ws
           end
  end.

(** [a.join(' ')]. *)
Definition join (ls : list string) : string := String.concat " " ls.

(** [s.includes(sub)]. *)
Fixpoint includes (s sub : string) : bool :=
  if String.prefix sub s then true
  else match s with
       | EmptyString => false
       | String _ s' => includes s' sub
       end.

(** White space of ECMAScript among the code units below 256:
    TAB, LF, VT, FF, CR, SP and NBSP. *)
Definition isWhiteSpace (c : ascii) : bool :=
  let n := nat_of_ascii c in
  ((n =? 9) || (n =? 10) || (n =? 11) || (n =? 12) || (n =? 13)
   || (n =? 32) || (n =? 160))%nat.

Fixpoint trimStart (s : string) : string :=
  match s with
  | EmptyString => EmptyString
  | String c s' => if isWhiteSpace c then trimStart s' else s
  end.

Fixpoint trimEnd (s : string) : string :=
  match s with
  | EmptyString => EmptyString
  | String c s' =>
      match trimEnd s' with
      | EmptyString => if isWhiteSpace c then EmptyString else String c EmptyString
      | t => String c t
      end
  end.

(** [s.trim()]. *)
Definition trim (s : string) : string := trimEnd (trimStart s).

(** Truthiness of a string: only the empty string is falsy. *)
Definition truthy (s : string) : bool :=
  match s with EmptyString => false | String _ _ => true end.

(** A text made of white space only (the empty text included). *)
Fixpoint allWhiteSpace (s : string) : bool :=
  match s with
  | EmptyString => true
  | String c s' => isWhiteSpace c && allWhiteSpace s'
  end.

End JsString.

(** ** Numbers *)

(** [a < b] on numbers, as a boolean. *)
Definition Qltb (a b : Q) : bool := negb (Qle_bool b a).

(** ** Text layout: [getLines] *)

Section TextLayout.

(** [ctx.measureText(s).width] under the font currently set. *)
Variable measure : string -> Q.
Variable maxWidth : Q.

(** The [for] loop of [getLines] over [words[1..]]: [lines] is the array
    pushed so far, [currentLine] the line being filled. *)
Fixpoint getLines_loop (lines : list string) (currentLine : string)
    (words : list string) : list string :=
  match words with
  | [] => lines ++ [currentLine]
  | w :: rest =>
      let width := measure (currentLine ++ " " ++ w) in
      if Qltb width maxWidth
      then getLines_loop lines (currentLine ++ " " ++ w) rest
      else getLines_loop (lines ++ [currentLine]) w rest
  end.

Definition getLines (text : string) : list string :=
  match JsString.split text with
  | [] => []   (* not reached: [split] never yields the empty array *)
  | w0 :: rest => getLines_loop [] w0 rest
  end.

(** A line the loop may emit: a word of the text as it stands, or a line
    that was measured below the maximum when its last word was added. *)
Definition lineOk (words : list string) (line : string) : Prop :=
  In line words \/ measure line < maxWidth.

End TextLayout.

(** ** Data model ([types.ts]) *)

Inductive BubblePosition := TopLeft | TopRight | BottomLeft | BottomRight.

Inductive BubbleShape := Rounded | Square | Thought.

(** The string a [BubblePosition] is at run time. *)
Definition posString (p : BubblePosition) : string :=
  match p with
  | TopLeft => "top-left"
  | TopRight => "top-right"
  | BottomLeft => "bottom-left"
  | BottomRight => "bottom-right"
  end.

(** [pos.includes(part)]. *)
Definition posIncludes (p : BubblePosition) (part : string) : bool :=
  JsString.includes (posString p) part.

(** The fields of [PanelData] the compositor reads.  The bubble fields are
    optional at run time: both renderers default them. *)
Record PanelData := mkPanel {
  id : string;
  index : Z;
  char1Dialogue : string;
  char1BubblePos : option BubblePosition;
  char1BubbleShape : option BubbleShape;
  char1BubbleX : option Q;
  char1BubbleY : option Q;
  char2Dialogue : string;
  char2BubblePos : option BubblePosition;
  char2BubbleShape : option BubbleShape;
  char2BubbleX : option Q;
  char2BubbleY : option Q;
  imageUrl : option string;
  isLoading : bool
}.

(** [Partial<PanelData>]: [None] is an absent key. *)
Record PanelUpdates := mkUpdates {
  u_char1Dialogue : option string;
  u_char1BubblePos : option BubblePosition;
  u_char1BubbleShape : option BubbleShape;
  u_char1BubbleX : option Q;
  u_char1BubbleY : option Q;
  u_char2Dialogue : option string;
  u_char2BubblePos : option BubblePosition;
  u_char2BubbleShape : option BubbleShape;
  u_char2BubbleX : option Q;
  u_char2BubbleY : option Q;
  u_imageUrl : option string;
  u_isLoading : option bool
}.

(** [a || b] and [a ?? b] on an optional field. *)
Definition orDefault {A : Type} (a : option A) (b : A) : A :=
  match a with Some v => v | None => b end.

(** [!!panel.imageUrl]. *)
Definition hasImage (p : PanelData) : bool :=
  match imageUrl p with Some u => JsString.truthy u | None => false end.

(** ** Raster compositor ([generateDownloadableImage]) *)

(** One fill or stroke on the canvas, with the geometry it was given. *)
Inductive DrawOp :=
  (** [ctx.drawImage(img, 0, 0)] *)
  | DrawImage
  (** [roundRect(x, y, w, h, radius)] (or [rect(x, y, w, h)] where the
      context has no [roundRect]), [fill], [stroke] with the line width and
      dash pattern in force *)
  | BubbleBox (x y w h radius lineWidth : Q) (lineDash : list Q)
  (** [arc(cx, cy, r, 0, Math.PI * 2)], [fill], [stroke] *)
  | Dot (cx cy r : Q)
  (** [moveTo(baseX1, baseY)], [lineTo(tipX, tipY)], [lineTo(baseX2, baseY)],
      [fill], [stroke] *)
  | Tail (baseX1 baseY tipX tipY baseX2 : Q)
  (** [fillRect(x, y, w, h)] in white *)
  | Cover (x y w h : Q)
  (** [fillText(line, x, y)] under the bubble font of [fontPx] pixels *)
  | FillText (fontPx : Z) (line : string) (x y : Q)
  (** the attribution text, [fillText] under a sans-serif font *)
  | Watermark (fontPx : Z) (line : string) (x y : Q).

Section Raster.

(** [ctx.measureText(s).width] under
    [bold <px>px "Neucha", "Comic Sans MS", sans-serif]. *)
Variable measureText : Z -> string -> Q.

(** [canvas.width] and [canvas.height], the natural size of the image. *)
Variables canvas_width canvas_height : Z.

Definition SCALE : Q := inject_Z canvas_width / 320.
Definition PADDING : Q := 8 * SCALE.
Definition RADIUS_XL : Q := 12 * SCALE.
Definition RADIUS_SM : Q := 2 * SCALE.
Definition RADIUS_THOUGHT : Q := 32 * SCALE.
Definition MIN_WIDTH : Q := 60 * SCALE.

(** *** The locals of [drawBubble] *)

Definition maxBubbleWidth : Q := inject_Z canvas_width * 0.35.

Definition fontSize (text : string) : Q :=
  let len := String.length text in
  if (len <? 20)%nat then 38
  else if (len <? 50)%nat then 32
  else 29.

(** The pixel size in [ctx.font]: [Math.floor(fontSize)]. *)
Definition fontPx (text : string) : Z := Qfloor (fontSize text).

Definition lineHeight (text : string) : Q := fontSize text * 1.1.

Definition lines (text : string) : list string :=
  getLines (measureText (fontPx text)) (maxBubbleWidth - PADDING * 2) text.

(** [lines.forEach(l => { if (w > textBlockWidth) textBlockWidth = w })],
    from [textBlockWidth = 0]. *)
Definition textBlockWidth (text : string) : Q :=
  fold_left
    (fun acc l =>
       let w := measureText (fontPx text) l in
       if Qltb acc w then w else acc)
    (lines text) 0.

Definition bubbleWidth (text : string) : Q :=
  Qmax (textBlockWidth text + PADDING * 2) MIN_WIDTH.

Definition bubbleHeight (text : string) : Q :=
  inject_Z (Z.of_nat (List.length (lines text))) * lineHeight text
  + PADDING * 2.

(** [x] and [y]: the percentages when both are defined, else 30. *)
Definition bubbleXY (posX posY : option Q) : Q * Q :=
  match posX, posY with
  | Some px, Some py =>
      (inject_Z canvas_width * (px / 100),
       inject_Z canvas_height * (py / 100))
  | _, _ => (30, 30)
  end.

Definition radius (shape : BubbleShape) : Q :=
  let r := RADIUS_XL in
  let r := match shape with Square => RADIUS_SM | _ => r end in
  match shape with Thought => RADIUS_THOUGHT | _ => r end.

Definition borderWidth : Q := 1 * SCALE.

Definition lineDash (shape : BubbleShape) : list Q :=
  match shape with
  | Thought => [5 * SCALE; 3 * SCALE]
  | _ => []
  end.

Definition tailSize : Q := 10 * SCALE.

(** The two dots of a thought bubble. *)
Definition drawDots (pos : BubblePosition) (x y w h : Q) : list DrawOp :=
  let dotSizeL := 8 * SCALE * 0.4 in
  let dotSizeS := 4 * SCALE * 0.4 in
  let dotX :=
    if posIncludes pos "right" then x + w - (40 * SCALE * 0.5)
    else x + (40 * SCALE * 0.5) in
  let dotY :=
    if posIncludes pos "bottom" then y - (15 * SCALE * 0.5)
    else y + h + (15 * SCALE * 0.5) in
  let offsetY :=
    if posIncludes pos "bottom" then - (15 * SCALE * 0.5)
    else 15 * SCALE * 0.5 in
  [ Dot dotX dotY dotSizeL;
    Dot (dotX + (if posIncludes pos "right" then 10 * SCALE * 0.5
                 else - (10 * SCALE * 0.5)))
        (dotY + offsetY) dotSizeS ].

(** The triangular tail and the white patch over its seam. *)
Definition drawTail (pos : BubblePosition) (x y w h : Q) : list DrawOp :=
  let tailOffset := 16 * SCALE in
  let triangle :=
    if posIncludes pos "bottom" then
      let tailBaseY := y in
      let tailHeight := 8 * SCALE in
      let baseX1 :=
        if posIncludes pos "left" then x + tailOffset
        else x + w - tailOffset - tailSize in
      let baseX2 := baseX1 + tailSize in
      let tipX := if posIncludes pos "left" then baseX1 else baseX2 in
      let tipY := y - tailHeight in
      Tail baseX1 tailBaseY tipX tipY baseX2
    else
      let tailBaseY := y + h in
      let tailHeight := 8 * SCALE in
      let baseX1 :=
        if posIncludes pos "left" then x + tailOffset
        else x + w - tailOffset - tailSize in
      let baseX2 := baseX1 + tailSize in
      let tipX := if posIncludes pos "left" then baseX1 else baseX2 in
      let tipY := y + h + tailHeight in
      Tail baseX1 tailBaseY tipX tipY baseX2 in
  let coverH := borderWidth * 2 in
  let coverW := tailSize - borderWidth * 2 in
  let coverX :=
    if posIncludes pos "left" then x + tailOffset + borderWidth
    else x + w - tailOffset - tailSize + borderWidth in
  [ triangle;
    if posIncludes pos "bottom"
    then Cover coverX (y - coverH / 2) coverW coverH
    else Cover coverX (y + h - coverH / 2) coverW coverH ].

(** [lines.forEach((line, index) => fillText(line, textCenterX, lineY))],
    from line number [index]. *)
Fixpoint drawText (px : Z) (textCenterX y lh : Q) (index : nat)
    (ls : list string) : list DrawOp :=
  match ls with
  | [] => []
  | line :: rest =>
      FillText px line textCenterX
               (y + PADDING + inject_Z (Z.of_nat index) * lh)
      :: drawText px textCenterX y lh (S index) rest
  end.

Definition drawBubble (text : string) (pos : BubblePosition)
    (shape : BubbleShape) (posX posY : option Q) : list DrawOp :=
  if negb (JsString.truthy (JsString.trim text)) then []
  else
    let w := bubbleWidth text in
    let h := bubbleHeight text in
    let '(x, y) := bubbleXY posX posY in
    [ BubbleBox x y w h (radius shape) borderWidth (lineDash shape) ]
    ++ (match shape with
        | Thought => drawDots pos x y w h
        | _ => drawTail pos x y w h
        end)
    ++ drawText (fontPx text) (x + w / 2) y (lineHeight text) 0 (lines text).

(** The drawing done once the image is decoded. *)
Definition drawPanel (panel : PanelData) : list DrawOp :=
  [ DrawImage ]
  ++ (if JsString.truthy (char1Dialogue panel)
      then drawBubble (char1Dialogue panel)
             (orDefault (char1BubblePos panel) TopLeft)
             (orDefault (char1BubbleShape panel) Rounded)
             (char1BubbleX panel) (char1BubbleY panel)
      else [])
  ++ (if JsString.truthy (char2Dialogue panel)
      then drawBubble (char2Dialogue panel)
             (orDefault (char2BubblePos panel) TopRight)
             (orDefault (char2BubbleShape panel) Rounded)
             (char2BubbleX panel) (char2BubbleY panel)
      else [])
  ++ [ Watermark (Qfloor (14 * SCALE)) "@tipmarketolog"
         (inject_Z canvas_width - 10 * SCALE)
         (inject_Z canvas_height - 10 * SCALE) ].

End Raster.

(** [generateDownloadableImage] for an image that decodes to
    [naturalWidth] by [naturalHeight]: nothing without an image URL. *)
Definition generateDownloadableImage (measureText : Z -> string -> Q)
    (naturalWidth naturalHeight : Z) (panel : PanelData)
    : option (list DrawOp) :=
  if negb (hasImage panel) then None
  else Some (drawPanel measureText naturalWidth naturalHeight panel).

(** *** Reading a trace *)

Record Box := mkBox { box_x : Q; box_y : Q; box_w : Q; box_h : Q;
                      box_radius : Q; box_lineWidth : Q }.

Record TailGeom := mkTail { tail_x1 : Q; tail_baseY : Q; tail_tipX : Q;
                            tail_tipY : Q; tail_x2 : Q }.

Record CoverGeom := mkCover { cover_x : Q; cover_y : Q; cover_w : Q;
                              cover_h : Q }.

Record DotGeom := mkDot { dot_cx : Q; dot_cy : Q; dot_r : Q }.

(** The first bubble box of a trace. *)
Fixpoint boxOf (ops : list DrawOp) : option Box :=
  match ops with
  | [] => None
  | BubbleBox x y w h r lw _ :: _ => Some (mkBox x y w h r lw)
  | _ :: rest => boxOf rest
  end.

(** The first triangular tail of a trace. *)
Fixpoint tailOf (ops : list DrawOp) : option TailGeom :=
  match ops with
  | [] => None
  | Tail x1 by_ tx ty x2 :: _ => Some (mkTail x1 by_ tx ty x2)
  | _ :: rest => tailOf rest
  end.

(** The first cover patch of a trace. *)
Fixpoint coverOf (ops : list DrawOp) : option CoverGeom :=
  match ops with
  | [] => None
  | Cover x y w h :: _ => Some (mkCover x y w h)
  | _ :: rest => coverOf rest
  end.

(** The dots of a trace, in drawing order. *)
Fixpoint dotsOf (ops : list DrawOp) : list DotGeom :=
  match ops with
  | [] => []
  | Dot cx cy r :: rest => mkDot cx cy r :: dotsOf rest
  | _ :: rest => dotsOf rest
  end.

(** The font sizes of the dialogue lines of a trace, in drawing order. *)
Fixpoint textFonts (ops : list DrawOp) : list Z :=
  match ops with
  | [] => []
  | FillText px _ _ _ :: rest => px :: textFonts rest
  | _ :: rest => textFonts rest
  end.

(** The bubble operations of a trace: all but the base image and the
    attribution. *)
Definition bubbleOps (ops : list DrawOp) : list DrawOp :=
  filter (fun op => match op with
                    | DrawImage | Watermark _ _ _ _ => false
                    | _ => true
                    end) ops.

(** ** Interactive overlay ([ComicPanel]) *)

Definition getFontSizeClass (text : string) : string :=
  let len := String.length text in
  if (len <? 20)%nat then "text-xs"
  else if (len <? 50)%nat then "text-[10px]"
  else "text-[9px]".

Definition getShapeClass (shape : option BubbleShape) : string :=
  match shape with
  | Some Square => "rounded-sm"
  | Some Thought => "rounded-[2rem] border-dashed"
  | _ => "rounded-xl"
  end.

Definition getTailClass (pos : option BubblePosition)
    (shape : option BubbleShape) (isChar1 : bool) : string :=
  let p := orDefault pos (if isChar1 then TopLeft else TopRight) in
  let s := orDefault shape Rounded in
  match s with
  | Thought => "hidden"
  | _ =>
      let size := "w-2.5 h-2.5" in
      if posIncludes p "top" then
        if posIncludes p "left"
        then "absolute -bottom-2 left-4 " ++ size
             ++ " bg-white border-b border-r border-black transform rotate-45"
        else "absolute -bottom-2 right-4 " ++ size
             ++ " bg-white border-b border-r border-black transform rotate-45"
      else
        if posIncludes p "left"
        then "absolute -top-2 left-4 " ++ size
             ++ " bg-white border-t border-l border-black transform rotate-45"
        else "absolute -top-2 right-4 " ++ size
             ++ " bg-white border-t border-l border-black transform rotate-45"
  end.

Definition getTailCoverClass (pos : option BubblePosition)
    (shape : option BubbleShape) (isChar1 : bool) : string :=
  let s := orDefault shape Rounded in
  match s with
  | Thought => "hidden"
  | _ =>
      let p := orDefault pos (if isChar1 then TopLeft else TopRight) in
      let w := "w-4" in
      let h := "h-1.5" in
      if posIncludes p "top" then
        if posIncludes p "left"
        then "absolute bottom-0 left-4 " ++ w ++ " " ++ h ++ " bg-white"
        else "absolute bottom-0 right-4 " ++ w ++ " " ++ h ++ " bg-white"
      else
        if posIncludes p "left"
        then "absolute top-0 left-4 " ++ w ++ " " ++ h ++ " bg-white"
        else "absolute top-0 right-4 " ++ w ++ " " ++ h ++ " bg-white"
  end.

(** The element [renderThoughtTail] returns: a flex column holding the
    large dot and then the small dot, each with its class. *)
Record ThoughtTail := mkThoughtTail {
  containerClass : string;
  largeDotClass : string;
  smallDotClass : string
}.

Definition renderThoughtTail (pos : option BubblePosition) (isChar1 : bool)
    : ThoughtTail :=
  let p := orDefault pos (if isChar1 then TopLeft else TopRight) in
  let isTop := posIncludes p "top" in
  let isLeft := posIncludes p "left" in
  {| containerClass :=
       "absolute flex flex-col items-center gap-0.5 pointer-events-none z-0 "
       ++ (if isTop then "-bottom-5" else "-top-5") ++ " "
       ++ (if isLeft then "left-6" else "right-6");
     largeDotClass :=
       "w-2 h-2 bg-white border border-black rounded-full "
       ++ (if isTop then "" else "order-last");
     smallDotClass :=
       "w-1 h-1 bg-white border border-black rounded-full "
       ++ (if isTop then "translate-y-1" else "-translate-y-1") |}.

(** How the classes of a thought tail lay the dots out.  Below the bubble:
    the column hangs under the bottom edge ([-bottom-5]) and holds the
    large dot ([w-2 h-2]) first, next to the bubble, then the small one
    ([w-1 h-1]). *)
Definition thoughtTailBelow (t : ThoughtTail) : Prop :=
  JsString.includes (containerClass t) "-bottom-5" = true
  /\ JsString.includes (containerClass t) "-top-5" = false
  /\ JsString.includes (largeDotClass t) "w-2 h-2" = true
  /\ JsString.includes (largeDotClass t) "order-last" = false
  /\ JsString.includes (smallDotClass t) "w-1 h-1" = true.

(** Above the bubble: the column stands over the top edge ([-top-5]) and
    the large dot is moved last ([order-last]), next to the bubble. *)
Definition thoughtTailAbove (t : ThoughtTail) : Prop :=
  JsString.includes (containerClass t) "-top-5" = true
  /\ JsString.includes (containerClass t) "-bottom-5" = false
  /\ JsString.includes (largeDotClass t) "w-2 h-2" = true
  /\ JsString.includes (largeDotClass t) "order-last" = true
  /\ JsString.includes (smallDotClass t) "w-1 h-1" = true.

(** One bubble of the overlay: the positioned wrapper ([left], [top] in
    percent), the bubble box with its text, the tail, the tail cover and
    the thought dots when there are any. *)
Record BubbleElement := mkBubbleElement {
  leftPct : Q;
  topPct : Q;
  fontSizeClass : string;
  shapeClass : string;
  content : string;
  tailClass : string;
  tailCoverClass : string;
  thoughtTail : option ThoughtTail
}.

Definition shapeIsThought (shape : option BubbleShape) : bool :=
  match shape with Some Thought => true | _ => false end.

(** The "Character 1 Bubble" element. *)
Definition char1Bubble (panel : PanelData) : BubbleElement :=
  {| leftPct := orDefault (char1BubbleX panel) 5;
     topPct := orDefault (char1BubbleY panel) 5;
     fontSizeClass := getFontSizeClass (char1Dialogue panel);
     shapeClass := getShapeClass (char1BubbleShape panel);
     content := char1Dialogue panel;
     tailClass :=
       getTailClass (char1BubblePos panel) (char1BubbleShape panel) true;
     tailCoverClass :=
       getTailCoverClass (char1BubblePos panel) (char1BubbleShape panel) true;
     thoughtTail :=
       if shapeIsThought (char1BubbleShape panel)
       then Some (renderThoughtTail (char1BubblePos panel) true)
       else None |}.

(** The "Character 2 Bubble" element. *)
Definition char2Bubble (panel : PanelData) : BubbleElement :=
  {| leftPct := orDefault (char2BubbleX panel) 55;
     topPct := orDefault (char2BubbleY panel) 5;
     fontSizeClass := getFontSizeClass (char2Dialogue panel);
     shapeClass := getShapeClass (char2BubbleShape panel);
     content := char2Dialogue panel;
     tailClass :=
       getTailClass (char2BubblePos panel) (char2BubbleShape panel) false;
     tailCoverClass :=
       getTailCoverClass (char2BubblePos panel) (char2BubbleShape panel) false;
     thoughtTail :=
       if shapeIsThought (char2BubbleShape panel)
       then Some (renderThoughtTail (char2BubblePos panel) false)
       else None |}.

(** The bubbles under "Speech Bubbles Overlay" of [ComicPanel]:
    [!panel.isLoading && panel.imageUrl && ...], then one element per
    character whose dialogue is truthy. *)
Definition ComicPanel_bubbles (panel : PanelData) : list BubbleElement :=
  if negb (isLoading panel) && hasImage panel then
    (if JsString.truthy (char1Dialogue panel) then [char1Bubble panel] else [])
    ++
    (if JsString.truthy (char2Dialogue panel) then [char2Bubble panel] else [])
  else [].

(** ** Panel editor and application state *)

(** [{ ...p, ...updates }].  No caller updates [id] or [index]. *)
Definition mergePanel (p : PanelData) (u : PanelUpdates) : PanelData :=
  let over {A} (o : option A) (old : A) : A := orDefault o old in
  let overOpt {A} (o : option A) (old : option A) : option A :=
    match o with Some v => Some v | None => old end in
  {| id := id p;
     index := index p;
     char1Dialogue := over (u_char1Dialogue u) (char1Dialogue p);
     char1BubblePos := overOpt (u_char1BubblePos u) (char1BubblePos p);
     char1BubbleShape := overOpt (u_char1BubbleShape u) (char1BubbleShape p);
     char1BubbleX := overOpt (u_char1BubbleX u) (char1BubbleX p);
     char1BubbleY := overOpt (u_char1BubbleY u) (char1BubbleY p);
     char2Dialogue := over (u_char2Dialogue u) (char2Dialogue p);
     char2BubblePos := overOpt (u_char2BubblePos u) (char2BubblePos p);
     char2BubbleShape := overOpt (u_char2BubbleShape u) (char2BubbleShape p);
     char2BubbleX := overOpt (u_char2BubbleX u) (char2BubbleX p);
     char2BubbleY := overOpt (u_char2BubbleY u) (char2BubbleY p);
     imageUrl := overOpt (u_imageUrl u) (imageUrl p);
     isLoading := over (u_isLoading u) (isLoading p) |}.

(** [updatePanel]: [panels.map(p => p.id === id ? { ...p, ...updates } : p)]. *)
Definition updatePanel (panelId : string) (updates : PanelUpdates)
    (panels : list PanelData) : list PanelData :=
  map (fun p => if String.eqb (id p) panelId then mergePanel p updates else p)
      panels.

Definition BubblePosition_eqb (a b : BubblePosition) : bool :=
  String.eqb (posString a) (posString b).

(** The [x], [y] pair [handleQuickPos] picks for a corner. *)
Definition quickPosXY (pos : BubblePosition) : Q * Q :=
  let x := 5 in
  let y := 5 in
  let '(x, y) := if BubblePosition_eqb pos TopRight then (55, 5) else (x, y) in
  let '(x, y) := if BubblePosition_eqb pos BottomLeft then (5, 70) else (x, y) in
  let '(x, y) := if BubblePosition_eqb pos BottomRight then (55, 70) else (x, y) in
  (x, y).

(** The [updates] object [handleQuickPos] passes to [onUpdate]. *)
Definition quickPosUpdates (pos : BubblePosition) (isChar1 : bool)
    : PanelUpdates :=
  let '(x, y) := quickPosXY pos in
  if isChar1
  then {| u_char1Dialogue := None; u_char1BubblePos := Some pos;
          u_char1BubbleShape := None;
          u_char1BubbleX := Some x; u_char1BubbleY := Some y;
          u_char2Dialogue := None; u_char2BubblePos := None;
          u_char2BubbleShape := None;
          u_char2BubbleX := None; u_char2BubbleY := None;
          u_imageUrl := None; u_isLoading := None |}
  else {| u_char1Dialogue := None; u_char1BubblePos := None;
          u_char1BubbleShape := None;
          u_char1BubbleX := None; u_char1BubbleY := None;
          u_char2Dialogue := None; u_char2BubblePos := Some pos;
          u_char2BubbleShape := None;
          u_char2BubbleX := Some x; u_char2BubbleY := Some y;
          u_imageUrl := None; u_isLoading := None |}.

(** [handleQuickPos(id, pos, isChar1)] with [onUpdate] bound to
    [updatePanel], as the application binds it. *)
Definition handleQuickPos (panelId : string) (pos : BubblePosition)
    (isChar1 : bool) (panels : list PanelData) : list PanelData :=
  updatePanel panelId (quickPosUpdates pos isChar1) panels.

(** ** More of the trace *)

Record TextGeom := mkText { text_px : Z; text_line : string;
                            text_x : Q; text_y : Q }.

(** The dialogue lines of a trace, in drawing order. *)
Fixpoint textsOf (ops : list DrawOp) : list TextGeom :=
  match ops with
  | [] => []
  | FillText px line x y :: rest => mkText px line x y :: textsOf rest
  | _ :: rest => textsOf rest
  end.

(** The dash pattern of the first bubble box of a trace. *)
Fixpoint dashOf (ops : list DrawOp) : option (list Q) :=
  match ops with
  | [] => None
  | BubbleBox _ _ _ _ _ _ dash :: _ => Some dash
  | _ :: rest => dashOf rest
  end.

(** The number of bubble boxes of a trace. *)
Fixpoint countBoxes (ops : list DrawOp) : nat :=
  match ops with
  | [] => 0
  | BubbleBox _ _ _ _ _ _ _ :: rest => S (countBoxes rest)
  | _ :: rest => countBoxes rest
  end.

(** ** Panel editor: live preview and Clear ([PanelEditor]) *)

Module PanelEditor.

(** The preview logic, "duplicated from ComicPanel to ensure WYSIWYG". *)
Definition getFontSizeClass (text : string) : string :=
  let len := String.length text in
  if (len <? 20)%nat then "text-xs"
  else if (len <? 50)%nat then "text-[10px]"
  else "text-[9px]".

Definition getShapeClass (shape : option BubbleShape) : string :=
  match shape with
  | Some Square => "rounded-sm"
  | Some Thought => "rounded-[2rem] border-dashed"
  | _ => "rounded-xl"
  end.

Definition getTailClass (pos : option BubblePosition)
    (shape : option BubbleShape) (isChar1 : bool) : string :=
  let p := orDefault pos (if isChar1 then TopLeft else TopRight) in
  let s := orDefault shape Rounded in
  match s with
  | Thought => "hidden"
  | _ =>
      let size := "w-2.5 h-2.5" in
      if posIncludes p "top" then
        if posIncludes p "left"
        then "absolute -bottom-2 left-4 " ++ size
             ++ " bg-white border-b border-r border-black transform rotate-45"
        else "absolute -bottom-2 right-4 " ++ size
             ++ " bg-white border-b border-r border-black transform rotate-45"
      else
        if posIncludes p "left"
        then "absolute -top-2 left-4 " ++ size
             ++ " bg-white border-t border-l border-black transform rotate-45"
        else "absolute -top-2 right-4 " ++ size
             ++ " bg-white border-t border-l border-black transform rotate-45"
  end.

Definition getTailCoverClass (pos : option BubblePosition)
    (shape : option BubbleShape) (isChar1 : bool) : string :=
  let s := orDefault shape Rounded in
  match s with
  | Thought => "hidden"
  | _ =>
      let p := orDefault pos (if isChar1 then TopLeft else TopRight) in
      let w := "w-4" in
      let h := "h-1.5" in
      if posIncludes p "top" then
        if posIncludes p "left"
        then "absolute bottom-0 left-4 " ++ w ++ " " ++ h ++ " bg-white"
        else "absolute bottom-0 right-4 " ++ w ++ " " ++ h ++ " bg-white"
      else
        if posIncludes p "left"
        then "absolute top-0 left-4 " ++ w ++ " " ++ h ++ " bg-white"
        else "absolute top-0 right-4 " ++ w ++ " " ++ h ++ " bg-white"
  end.

Definition renderThoughtTail (pos : option BubblePosition) (isChar1 : bool)
    : ThoughtTail :=
  let p := orDefault pos (if isChar1 then TopLeft else TopRight) in
  let isTop := posIncludes p "top" in
  let isLeft := posIncludes p "left" in
  {| containerClass :=
       "absolute flex flex-col items-center gap-0.5 pointer-events-none z-0 "
       ++ (if isTop then "-bottom-5" else "-top-5") ++ " "
       ++ (if isLeft then "left-6" else "right-6");
     largeDotClass :=
       "w-2 h-2 bg-white border border-black rounded-full "
       ++ (if isTop then "" else "order-last");
     smallDotClass :=
       "w-1 h-1 bg-white border border-black rounded-full "
       ++ (if isTop then "translate-y-1" else "-translate-y-1") |}.

(** The "Char 1 Bubble" element of the preview. *)
Definition char1Bubble (panel : PanelData) : BubbleElement :=
  {| leftPct := orDefault (char1BubbleX panel) 5;
     topPct := orDefault (char1BubbleY panel) 5;
     fontSizeClass := getFontSizeClass (char1Dialogue panel);
     shapeClass := getShapeClass (char1BubbleShape panel);
     content := char1Dialogue panel;
     tailClass :=
       getTailClass (char1BubblePos panel) (char1BubbleShape panel) true;
     tailCoverClass :=
       getTailCoverClass (char1BubblePos panel) (char1BubbleShape panel) true;
     thoughtTail :=
       if shapeIsThought (char1BubbleShape panel)
       then Some (renderThoughtTail (char1BubblePos panel) true)
       else None |}.

(** The "Char 2 Bubble" element of the preview. *)
Definition char2Bubble (panel : PanelData) : BubbleElement :=
  {| leftPct := orDefault (char2BubbleX panel) 55;
     topPct := orDefault (char2BubbleY panel) 5;
     fontSizeClass := getFontSizeClass (char2Dialogue panel);
     shapeClass := getShapeClass (char2BubbleShape panel);
     content := char2Dialogue panel;
     tailClass :=
       getTailClass (char2BubblePos panel) (char2BubbleShape panel) false;
     tailCoverClass :=
       getTailCoverClass (char2BubblePos panel) (char2BubbleShape panel) false;
     thoughtTail :=
       if shapeIsThought (char2BubbleShape panel)
       then Some (renderThoughtTail (char2BubblePos panel) false)
       else None |}.

(** The bubbles under "PREVIEW BUBBLES & WATERMARK": [panel.imageUrl && ...],
    then one element per character whose dialogue is truthy. *)
Definition preview_bubbles (panel : PanelData) : list BubbleElement :=
  if hasImage panel then
    (if JsString.truthy (char1Dialogue panel) then [char1Bubble panel] else [])
    ++
    (if JsString.truthy (char2Dialogue panel) then [char2Bubble panel] else [])
  else [].

(** The [updates] object of the Clear button, on the fields modelled:
    both dialogues become the empty string (and so do both actions and the
    setting). *)
Definition clearUpdates : PanelUpdates :=
  {| u_char1Dialogue := Some EmptyString; u_char1BubblePos := None;
     u_char1BubbleShape := None;
     u_char1BubbleX := None; u_char1BubbleY := None;
     u_char2Dialogue := Some EmptyString; u_char2BubblePos := None;
     u_char2BubbleShape := None;
     u_char2BubbleX := None; u_char2BubbleY := None;
     u_imageUrl := None; u_isLoading := None |}.

(** The Clear button with [onUpdate] bound to [updatePanel]. *)
Definition handleClear (panelId : string) (panels : list PanelData)
    : list PanelData :=
  updatePanel panelId clearUpdates panels.

End PanelEditor.

(** ** Application state ([App]) *)

(** A number in a template string, for an integer. *)
Definition numberToString (z : Z) : string :=
  DecimalString.NilEmpty.string_of_int (Z.to_int z).

(** [list.map((x, i) => f(x, i))], counting from [i]. *)
Fixpoint mapi_from {A B : Type} (f : A -> nat -> B) (i : nat) (l : list A)
    : list B :=
  match l with
  | [] => []
  | x :: rest => f x i :: mapi_from f (S i) rest
  end.

(** [createPanels(count)] at the time [now] of [Date.now()]. *)
Definition createPanels (now : Z) (count : nat) : list PanelData :=
  map (fun i =>
         {| id := "panel-" ++ numberToString now ++ "-"
                  ++ numberToString (Z.of_nat i);
            index := Z.of_nat i;
            char1Dialogue := EmptyString;
            char1BubblePos := Some TopLeft;
            char1BubbleShape := Some Rounded;
            char1BubbleX := Some 5;
            char1BubbleY := Some 5;
            char2Dialogue := EmptyString;
            char2BubblePos := Some TopRight;
            char2BubbleShape := Some Rounded;
            char2BubbleX := Some 55;
            char2BubbleY := Some 5;
            imageUrl := None;
            isLoading := false |})
      (seq 0 count).

(** A panel of the script the generation service answers with; a key may
    be missing. *)
Record ScriptPanel := mkScriptPanel {
  sp_setting : option string;
  sp_char1Action : option string;
  sp_char1Dialogue : option string;
  sp_char2Action : option string;
  sp_char2Dialogue : option string
}.

(** [s || ''] on an optional string. *)
Definition orEmpty (s : option string) : string :=
  match s with Some v => v | None => EmptyString end.

(** [scriptPanel?.field]. *)
Definition optField (sp : option ScriptPanel)
    (field : ScriptPanel -> option string) : option string :=
  match sp with Some p => field p | None => None end.

(** The panels the state updater of [handleGenerateScript] returns, for
    the script panels [script] and the panels [prev] of the state. *)
Definition applyScript (now : Z) (script : list ScriptPanel)
    (prev : list PanelData) : list PanelData :=
  let newPanels :=
    mapi_from
      (fun p i =>
         let scriptPanel := nth_error script i in
         {| id := id p;
            index := index p;
            char1Dialogue := orEmpty (optField scriptPanel sp_char1Dialogue);
            char1BubblePos := char1BubblePos p;
            char1BubbleShape := char1BubbleShape p;
            char1BubbleX := char1BubbleX p;
            char1BubbleY := char1BubbleY p;
            char2Dialogue := orEmpty (optField scriptPanel sp_char2Dialogue);
            char2BubblePos := char2BubblePos p;
            char2BubbleShape := char2BubbleShape p;
            char2BubbleX := char2BubbleX p;
            char2BubbleY := char2BubbleY p;
            imageUrl := None;
            isLoading := false |})
      0 prev in
  if negb (List.length script =? List.length prev)%nat then
    mapi_from
      (fun sp i =>
         {| id := "panel-" ++ numberToString now ++ "-"
                  ++ numberToString (Z.of_nat i);
            index := Z.of_nat i;
            char1Dialogue := orEmpty (sp_char1Dialogue sp);
            char1BubblePos := Some TopLeft;
            char1BubbleShape := Some Rounded;
            char1BubbleX := Some 5;
            char1BubbleY := Some 5;
            char2Dialogue := orEmpty (sp_char2Dialogue sp);
            char2BubblePos := Some TopRight;
            char2BubbleShape := Some Rounded;
            char2BubbleX := Some 55;
            char2BubbleY := Some 5;
            imageUrl := None;
            isLoading := false |})
      0 script
  else newPanels.

(** The name [handleDownloadAll] files a panel under. *)
Definition zipFileName (panel : PanelData) : string :=
  "panel-" ++ numberToString (index panel + 1) ++ ".png".

(** [handleDownloadAll]: [None] when it alerts that there is nothing to
    download, else the files put in the archive folder, in order; every
    image is taken to decode, to the size [naturalSize] gives its URL. *)
Definition handleDownloadAll (measureText : Z -> string -> Q)
    (naturalSize : string -> Z * Z) (panels : list PanelData)
    : option (list (string * list DrawOp)) :=
  let panelsToDownload := filter hasImage panels in
  if (List.length panelsToDownload =? 0)%nat then None
  else
    Some (flat_map
            (fun panel =>
               let '(w, h) := naturalSize (orEmpty (imageUrl panel)) in
               match generateDownloadableImage measureText w h panel with
               | Some dataUrl => [(zipFileName panel, dataUrl)]
               | None => []
               end)
            panelsToDownload).

(** ** Image prompt ([generatePanelImage]) *)

(** [sceneDescription]: the local setting after the global one, or the
    global one, or a stock background. *)
Definition sceneDescription (setting globalSetting : string) : string :=
  if JsString.truthy setting
     && negb (String.eqb (JsString.trim setting) EmptyString)
  then (if JsString.truthy globalSetting then globalSetting ++ ". "
        else EmptyString) ++ setting
  else if JsString.truthy globalSetting then globalSetting
       else "Generic abstract background".

(** ** Generation service: retries ([generateComicScript],
    [generatePanelImage]) *)

Module GeminiService.

(** [s.toLowerCase()] on the code units below 256: A to Z and the capital
    letters of Latin-1 (all of 192 to 222 but the multiplication sign). *)
Definition lowerChar (c : ascii) : ascii :=
  let n := nat_of_ascii c in
  if ((65 <=? n) && (n <=? 90)
      || (192 <=? n) && (n <=? 222) && negb (n =? 215))%nat
  then ascii_of_nat (n + 32)
  else c.

Fixpoint toLowerCase (s : string) : string :=
  match s with
  | EmptyString => EmptyString
  | String c s' => String (lowerChar c) (toLowerCase s')
  end.

(** What the loops read of a caught value: [error.message],
    [error.status] and [JSON.stringify(error)]. *)
Record JsError := mkError {
  message : option string;
  status : option Z;
  json : string
}.

(** [new Error(msg)]: no status, and no enumerable property to print. *)
Definition newError (msg : string) : JsError :=
  {| message := Some msg; status := None; json := "{}" |}.

Definition isQuotaError (error : JsError) : bool :=
  let msg := toLowerCase (orEmpty (message error)) in
  let str := toLowerCase (json error) in
  JsString.includes msg "429"
  || JsString.includes msg "quota"
  || JsString.includes msg "resource_exhausted"
  || JsString.includes str "429"
  || JsString.includes str "resource_exhausted".

(** A run of a retry loop: what it returned or threw, how many requests it
    sent and the pauses it made between them, in milliseconds. *)
Record Run (R : Type) := mkRun {
  outcome : R + JsError;
  calls : nat;
  waited : list Z
}.
Arguments mkRun {R}.
Arguments outcome {R}.
Arguments calls {R}.
Arguments waited {R}.

(** The milliseconds a run spent pausing. *)
Definition totalWait (pauses : list Z) : Z := fold_right Z.add 0%Z pauses.

Definition quotaExceeded : JsError :=
  newError "API Quota Exceeded. You are generating too fast. Please wait 1-2 minutes and try again.".

(** [x === a || x === b] on an optional string. *)
Definition isOneOf (x : option string) (a b : string) : bool :=
  match x with
  | Some v => String.eqb v a || String.eqb v b
  | None => false
  end.

(** [x === a] on an optional string. *)
Definition isString (x : option string) (a : string) : bool :=
  match x with
  | Some v => String.eqb v a
  | None => false
  end.

Definition truthyOpt (x : option string) : bool :=
  match x with Some v => JsString.truthy v | None => false end.

(** *** The script loop

    [getAiClient], which throws before the loop when there is no API key,
    is left out. *)

(** What a request for a script comes back with: it throws, or it answers
    with [response.text] and [response.candidates?.[0]?.finishReason]. *)
Inductive ScriptAnswer :=
  | ScriptThrows (e : JsError)
  | ScriptResponds (text : option string) (finishReason : option string).

Section ScriptLoop.

(** The parsed script type and [JSON.parse], which may throw. *)
Variable Script : Type.
Variable JSON_parse : string -> Script + JsError.

(** The answer to the request of each attempt, counted from 1. *)
Variable api : nat -> ScriptAnswer.

Definition scriptMaxAttempts : nat := 5.

(** The body of [try] for one answer: the script, or what is thrown. *)
Definition scriptTry (answer : ScriptAnswer) : Script + JsError :=
  match answer with
  | ScriptThrows e => inr e
  | ScriptResponds text finishReason =>
      if negb (truthyOpt text) then
        if truthyOpt finishReason
           && isOneOf finishReason "PROHIBITED_CONTENT" "SAFETY"
        then inr (newError "Content blocked by safety filters. Please try a different topic or anecdote.")
        else inr (newError "Empty response from AI (possibly blocked or schema error)")
      else JSON_parse (orEmpty text)
  end.

(** [while (attempts < maxAttempts)], with [fuel] iterations left. *)
Fixpoint scriptLoop (fuel attempts : nat) (pauses : list Z) : Run Script :=
  match fuel with
  | O =>
      mkRun (inr (newError "Failed to generate script after multiple attempts."))
            attempts pauses
  | S fuel' =>
      let attempts := S attempts in
      match scriptTry (api attempts) with
      | inl script => mkRun (inl script) attempts pauses
      | inr error =>
          if isQuotaError error then
            if (attempts =? scriptMaxAttempts)%nat
            then mkRun (inr quotaExceeded) attempts pauses
            else
              let waitTime := (10000 * Z.of_nat attempts)%Z in
              scriptLoop fuel' attempts (pauses ++ [waitTime])
          else if (match status error with
                   | Some st => (st =? 500)%Z || (st =? 503)%Z
                   | None => false
                   end)
                  && (attempts <? scriptMaxAttempts)%nat
          then scriptLoop fuel' attempts (pauses ++ [3000%Z])
          else mkRun (inr error) attempts pauses
      end
  end.

Definition generateComicScript : Run Script :=
  scriptLoop scriptMaxAttempts 0 [].

End ScriptLoop.

(** *** The image loop *)

(** A part of a candidate: [part.inlineData.data] and [part.text]. *)
Record Part := mkPart {
  inlineData : option string;
  partText : option string
}.

(** [response.candidates?.[0]]: its [finishReason] and [content?.parts]. *)
Record Candidate := mkCandidate {
  finishReason : option string;
  parts : option (list Part)
}.

Inductive ImageAnswer :=
  | ImageThrows (e : JsError)
  | ImageResponds (candidate : option Candidate).

(** The first part with inline data, as a data URL. *)
Fixpoint firstImage (ps : list Part) : option string :=
  match ps with
  | [] => None
  | part :: rest =>
      match inlineData part with
      | Some data => Some ("data:image/png;base64," ++ data)
      | None => firstImage rest
      end
  end.

(** [for (part of parts) if (part.text) textOutput += part.text]. *)
Fixpoint textOutputOf (ps : list Part) : string :=
  match ps with
  | [] => EmptyString
  | part :: rest =>
      (if truthyOpt (partText part) then orEmpty (partText part)
       else EmptyString) ++ textOutputOf rest
  end.

Definition noImageData (reason : option string) : JsError :=
  newError ("No image data received from API. (Finish Reason: "
            ++ (if truthyOpt reason then orEmpty reason else "Unknown")
            ++ ")").

(** What [error.message.includes] throws on a value without message. *)
Definition typeError : JsError :=
  newError "Cannot read properties of undefined (reading 'includes')".

Section ImageLoop.

Variable api : nat -> ImageAnswer.

Definition imageMaxAttempts : nat := 8.

(** How one pass through [try] ends. *)
Inductive Tried :=
  | TriedReturn (url : string)
  | TriedThrow (e : JsError)
  | TriedContinue (waitTime : Z).

Definition imageTry (attempts : nat) (answer : ImageAnswer) : Tried :=
  match answer with
  | ImageThrows e => TriedThrow e
  | ImageResponds None => TriedThrow (newError "No candidates returned from API.")
  | ImageResponds (Some candidate) =>
      let reason := finishReason candidate in
      let found :=
        if isString reason "STOP"
        then match parts candidate with
             | Some ps => firstImage ps
             | None => None
             end
        else None in
      match found with
      | Some url => TriedReturn url
      | None =>
          if isOneOf reason "SAFETY" "PROHIBITED_CONTENT"
          then TriedThrow (newError "Image generation blocked by safety filters. Try adjusting the prompt or character description.")
          else if isString reason "RECITATION"
          then TriedThrow (newError "Image generation blocked due to potential copyright/recitation.")
          else
            let textOutput :=
              match parts candidate with
              | Some ps => textOutputOf ps
              | None => EmptyString
              end in
            if JsString.truthy textOutput
               && (0 <? String.length (JsString.trim textOutput))%nat
            then TriedThrow
                   (newError ("AI returned text instead of image: "
                              ++ String (ascii_of_nat 34)
                                   (String.substring 0 100 textOutput
                                    ++ "..."
                                    ++ String (ascii_of_nat 34) EmptyString)))
            else if (attempts =? imageMaxAttempts)%nat
            then TriedThrow (noImageData reason)
            else TriedContinue (2000 * Z.of_nat attempts)%Z
      end
  end.

(** [while (attempts < maxAttempts)], with [fuel] iterations left. *)
Fixpoint imageLoop (fuel attempts : nat) (pauses : list Z) : Run string :=
  match fuel with
  | O =>
      mkRun (inr (newError "Unexpected error in image generation loop"))
            attempts pauses
  | S fuel' =>
      let attempts := S attempts in
      match imageTry attempts (api attempts) with
      | TriedReturn url => mkRun (inl url) attempts pauses
      | TriedContinue waitTime =>
          imageLoop fuel' attempts (pauses ++ [waitTime])
      | TriedThrow error =>
          if isQuotaError error then
            if (attempts =? imageMaxAttempts)%nat
            then mkRun (inr quotaExceeded) attempts pauses
            else
              let waitTime := (15000 + Z.of_nat attempts * 5000)%Z in
              imageLoop fuel' attempts (pauses ++ [waitTime])
          else
            match message error with
            | None => mkRun (inr typeError) attempts pauses
            | Some msg =>
                if JsString.includes msg "blocked by safety"
                   || JsString.includes msg "AI returned text"
                then mkRun (inr error) attempts pauses
                else if (attempts =? imageMaxAttempts)%nat
                then mkRun (inr error) attempts pauses
                else imageLoop fuel' attempts
                       (pauses ++ [(2000 * Z.of_nat attempts)%Z])
            end
      end
  end.

Definition generatePanelImage : Run string :=
  imageLoop imageMaxAttempts 0 [].

End ImageLoop.

End GeminiService.

(** ** A measurement to run the compositor with *)

(** A fixed-pitch font: every code unit advances half the font size. *)
Definition monospace (px : Z) (s : string) : Q :=
  inject_Z (Z.abs px * Z.of_nat (String.length s)) / 2.

(** * Properties *)

(** ** Numbers and strings *)

Lemma Qltb_lt (a b : Q) : Qltb a b = true <-> a < b.
Proof.
  unfold Qltb. rewrite negb_true_iff. split; intro H.
  - apply Qnot_le_lt. intro Hle. apply Qle_bool_iff in Hle. congruence.
  - destruct (Qle_bool b a) eqn:E; [|reflexivity].
    apply Qle_bool_iff in E. exfalso. exact (Qlt_not_le _ _ H E).
Qed.

Lemma Qltb_ge (a b : Q) : Qltb a b = false <-> b <= a.
Proof.
  unfold Qltb. rewrite negb_false_iff. apply Qle_bool_iff.
Qed.

Lemma string_app_assoc (a b c : string) : ((a ++ b) ++ c = a ++ (b ++ c))%string.
Proof.
  induction a as [|ch a IH]; simpl; [reflexivity|now rewrite IH].
Qed.

Module JsStringFacts.
Import JsString.

Lemma split_nonempty (s : string) : split s <> [].
Proof.
  destruct s as [|c s]; simpl; [discriminate|].
  destruct (Ascii.eqb c " "); [discriminate|].
  destruct (split s); discriminate.
Qed.

Lemma join_cons (x : string) (l : list string) :
  l <> [] -> join (x :: l) = (x ++ " " ++ join l)%string.
Proof.
  destruct l as [|y l]; [congruence|reflexivity].
Qed.

(** [s.split(' ').join(' ')] is [s]. *)
Lemma join_split (s : string) : join (split s) = s.
Proof.
  induction s as [|c s IH]; [reflexivity|].
  simpl split. destruct (Ascii.eqb c " ") eqn:E.
  - apply Ascii.eqb_eq in E. subst c.
    rewrite join_cons by apply split_nonempty. now rewrite IH.
  - pose proof (split_nonempty s) as Hne.
    destruct (split s) as [|w ws]; [congruence|].
    destruct ws as [|w' ws].
    + unfold join in *. simpl in *. now rewrite IH.
    + rewrite join_cons by discriminate.
      rewrite join_cons in IH by discriminate.
      rewrite <- IH. reflexivity.
Qed.

(** Gluing two neighbours with a space does not change the joined text. *)
Lemma join_glue (ls : list string) (cur w : string) (ws : list string) :
  join (ls ++ (cur ++ " " ++ w)%string :: ws) = join (ls ++ cur :: w :: ws).
Proof.
  induction ls as [|a ls IH].
  - simpl app. destruct ws as [|w' ws].
    + reflexivity.
    + rewrite (join_cons (cur ++ " " ++ w)) by discriminate.
      rewrite (join_cons cur) by discriminate.
      rewrite (join_cons w) by discriminate.
      now rewrite !string_app_assoc.
  - simpl app.
    rewrite !join_cons by (destruct ls; discriminate).
    apply (f_equal (fun t => (a ++ " " ++ t)%string)). exact IH.
Qed.

Lemma trimEnd_empty (s : string) :
  trimEnd s = EmptyString <-> allWhiteSpace s = true.
Proof.
  induction s as [|c s IH]; simpl; [tauto|].
  destruct (trimEnd s) eqn:E.
  - destruct (isWhiteSpace c); simpl.
    + rewrite <- IH. tauto.
    + split; discriminate.
  - split; [discriminate|].
    rewrite andb_true_iff. intros [_ H]. apply IH in H. discriminate.
Qed.

(** [!text.trim()] holds exactly of the texts made of white space. *)
Lemma trim_empty (s : string) :
  truthy (trim s) = false <-> allWhiteSpace s = true.
Proof.
  unfold trim.
  assert (Ht : forall t, truthy t = false <-> t = EmptyString)
    by (intros [|? ?]; simpl; split; congruence).
  rewrite Ht, trimEnd_empty.
  induction s as [|c s IH]; simpl; [tauto|].
  destruct (isWhiteSpace c) eqn:E; simpl; [exact IH|].
  rewrite E. simpl. tauto.
Qed.

End JsStringFacts.

(** ** Text layout *)

Section WrapFacts.

Variable measure : string -> Q.
Variable maxWidth : Q.

Lemma getLines_loop_nonempty (ls : list string) (cur : string)
    (ws : list string) :
  getLines_loop measure maxWidth ls cur ws <> [].
Proof.
  revert ls cur. induction ws as [|w ws IH]; intros ls cur; simpl.
  - destruct ls; discriminate.
  - destruct (Qltb _ _); apply IH.
Qed.

Lemma getLines_loop_join (ls : list string) (cur : string)
    (ws : list string) :
  JsString.join (getLines_loop measure maxWidth ls cur ws)
  = JsString.join (ls ++ cur :: ws).
Proof.
  revert ls cur. induction ws as [|w ws IH]; intros ls cur; simpl.
  - reflexivity.
  - destruct (Qltb _ _).
    + rewrite IH. apply JsStringFacts.join_glue.
    + rewrite IH. now rewrite <- app_assoc.
Qed.

Lemma getLines_loop_ok (words ls : list string) (cur : string)
    (ws : list string) :
  Forall (lineOk measure maxWidth words) ls -> lineOk measure maxWidth words cur -> incl ws words ->
  Forall (lineOk measure maxWidth words) (getLines_loop measure maxWidth ls cur ws).
Proof.
  revert ls cur. induction ws as [|w ws IH]; intros ls cur Hls Hcur Hws; simpl.
  - apply Forall_app. split; [assumption|]. constructor; [assumption|constructor].
  - assert (Hw : In w words) by (apply Hws; now left).
    assert (Hws' : incl ws words) by (intros a Ha; apply Hws; now right).
    destruct (Qltb _ _) eqn:E.
    + apply IH; try assumption. right. now apply Qltb_lt.
    + apply IH; try assumption.
      * apply Forall_app. split; [assumption|]. constructor; [assumption|constructor].
      * now left.
Qed.

Lemma getLines_ok (text : string) :
  Forall (lineOk measure maxWidth (JsString.split text)) (getLines measure maxWidth text).
Proof.
  unfold getLines. destruct (JsString.split text) as [|w0 rest] eqn:E.
  - constructor.
  - apply getLines_loop_ok.
    + constructor.
    + left. now left.
    + intros a Ha. now right.
Qed.

Lemma getLines_nonempty (text : string) :
  getLines measure maxWidth text <> [].
Proof.
  unfold getLines.
  pose proof (JsStringFacts.split_nonempty text) as Hne.
  destruct (JsString.split text) as [|w0 rest]; [congruence|].
  apply getLines_loop_nonempty.
Qed.

Lemma getLines_join (text : string) :
  JsString.join (getLines measure maxWidth text) = text.
Proof.
  unfold getLines.
  pose proof (JsStringFacts.join_split text) as Hjs.
  destruct (JsString.split text) as [|w0 rest] eqn:E.
  - exfalso. now apply (JsStringFacts.split_nonempty text).
  - rewrite getLines_loop_join. exact Hjs.
Qed.

(** C2.  The greedy wrap [getLines], for every text, maximum width and
    measurement function: the result is never empty (so not for a non-empty
    text either); a line measures at most the maximum width, or else it is
    a single word of the text, unmodified, whose own width exceeds the
    maximum; and the lines joined with single spaces are the text. *)
Theorem getLines_wrap_correct (text : string) :
  getLines measure maxWidth text <> []
  /\ (forall line, In line (getLines measure maxWidth text) ->
        measure line <= maxWidth
        \/ (In line (JsString.split text) /\ maxWidth < measure line))
  /\ JsString.join (getLines measure maxWidth text) = text.
Proof.
  split; [|split].
  - apply getLines_nonempty.
  - intros line Hin.
    pose proof (getLines_ok text) as Hall.
    rewrite Forall_forall in Hall. specialize (Hall line Hin).
    destruct (Qlt_le_dec maxWidth (measure line)) as [Hgt|Hle].
    + right. split; [|assumption].
      destruct Hall as [Hw|Hlt]; [assumption|].
      exfalso. apply (Qlt_irrefl maxWidth). now apply Qlt_trans with (measure line).
    + now left.
  - apply getLines_join.
Qed.

End WrapFacts.

(** ** Font tiers *)

(** C3.  The font tier is picked from the raw length of the dialogue:
    below 20 the largest tier (38 raster px, [text-xs]), below 50 the
    medium tier (32 raster px, [text-[10px]]), otherwise the smallest
    (29 raster px, [text-[9px]]); the raster compositor and the overlay
    pick the same tier for the same text. *)
Theorem font_tier_boundaries (text : string) :
  ((String.length text < 20)%nat ->
     fontPx text = 38%Z /\ getFontSizeClass text = "text-xs")
  /\ ((20 <= String.length text < 50)%nat ->
     fontPx text = 32%Z /\ getFontSizeClass text = "text-[10px]")
  /\ ((50 <= String.length text)%nat ->
     fontPx text = 29%Z /\ getFontSizeClass text = "text-[9px]").
Proof.
  unfold fontPx, fontSize, getFontSizeClass.
  split; [|split]; intros H; split.
  - assert (E : (String.length text <? 20)%nat = true) by (apply Nat.ltb_lt; lia).
    now rewrite E.
  - assert (E : (String.length text <? 20)%nat = true) by (apply Nat.ltb_lt; lia).
    now rewrite E.
  - assert (E1 : (String.length text <? 20)%nat = false) by (apply Nat.ltb_ge; lia).
    assert (E2 : (String.length text <? 50)%nat = true) by (apply Nat.ltb_lt; lia).
    now rewrite E1, E2.
  - assert (E1 : (String.length text <? 20)%nat = false) by (apply Nat.ltb_ge; lia).
    assert (E2 : (String.length text <? 50)%nat = true) by (apply Nat.ltb_lt; lia).
    now rewrite E1, E2.
  - assert (E1 : (String.length text <? 20)%nat = false) by (apply Nat.ltb_ge; lia).
    assert (E2 : (String.length text <? 50)%nat = false) by (apply Nat.ltb_ge; lia).
    now rewrite E1, E2.
  - assert (E1 : (String.length text <? 20)%nat = false) by (apply Nat.ltb_ge; lia).
    assert (E2 : (String.length text <? 50)%nat = false) by (apply Nat.ltb_ge; lia).
    now rewrite E1, E2.
Qed.

(** The four boundary lengths: 19, 20, 49 and 50 code units. *)
Lemma font_tier_boundaries_witness :
  (fontPx "Hello there, friend" = 38%Z
   /\ getFontSizeClass "Hello there, friend" = "text-xs")
  /\ (fontPx "Hello there, friend!" = 32%Z
      /\ getFontSizeClass "Hello there, friend!" = "text-[10px]")
  /\ (fontPx "We should leave before the rain floods the road.." = 32%Z
      /\ getFontSizeClass "We should leave before the rain floods the road.."
         = "text-[10px]")
  /\ (fontPx "We should leave before the rain floods the road..." = 29%Z
      /\ getFontSizeClass "We should leave before the rain floods the road..."
         = "text-[9px]").
Proof.
  split; [|split; [|split]].
  - apply (proj1 (font_tier_boundaries "Hello there, friend")).
    simpl; lia.
  - apply (proj1 (proj2 (font_tier_boundaries "Hello there, friend!"))).
    simpl; lia.
  - apply (proj1 (proj2 (font_tier_boundaries
             "We should leave before the rain floods the road.."))).
    simpl; lia.
  - apply (proj2 (proj2 (font_tier_boundaries
             "We should leave before the rain floods the road..."))).
    simpl; lia.
Defined.

(** ** Raster compositor: shape of the trace *)

Section RasterFacts.

Variable measureText : Z -> string -> Q.
Variables canvas_width canvas_height : Z.

Lemma SCALE_pos : (0 < canvas_width)%Z -> 0 < SCALE canvas_width.
Proof.
  intro H. unfold SCALE. apply Qlt_shift_div_l; [reflexivity|].
  rewrite Qmult_0_l. change 0 with (inject_Z 0). now rewrite <- Zlt_Qlt.
Qed.

(** What [drawBubble] draws for a text that is not skipped. *)
Lemma drawBubble_shown (text : string) (pos : BubblePosition)
    (shape : BubbleShape) (posX posY : option Q) :
  JsString.truthy (JsString.trim text) = true ->
  drawBubble measureText canvas_width canvas_height text pos shape posX posY
  = let w := bubbleWidth measureText canvas_width text in
    let h := bubbleHeight measureText canvas_width text in
    let x := fst (bubbleXY canvas_width canvas_height posX posY) in
    let y := snd (bubbleXY canvas_width canvas_height posX posY) in
    BubbleBox x y w h (radius canvas_width shape) (borderWidth canvas_width)
              (lineDash canvas_width shape)
    :: (match shape with
        | Thought => drawDots canvas_width pos x y w h
        | _ => drawTail canvas_width pos x y w h
        end)
    ++ drawText canvas_width (fontPx text) (x + w / 2) y (lineHeight text) 0
         (lines measureText canvas_width text).
Proof.
  intro H. unfold drawBubble. rewrite H. cbn [negb].
  destruct (bubbleXY canvas_width canvas_height posX posY) as [x y].
  reflexivity.
Qed.

Lemma drawBubble_skipped (text : string) (pos : BubblePosition)
    (shape : BubbleShape) (posX posY : option Q) :
  JsString.allWhiteSpace text = true ->
  drawBubble measureText canvas_width canvas_height text pos shape posX posY = [].
Proof.
  intro H. apply JsStringFacts.trim_empty in H.
  unfold drawBubble. now rewrite H.
Qed.

Lemma drawText_readers (px : Z) (cx y lh : Q) (i : nat) (ls : list string) :
  boxOf (drawText canvas_width px cx y lh i ls) = None
  /\ tailOf (drawText canvas_width px cx y lh i ls) = None
  /\ coverOf (drawText canvas_width px cx y lh i ls) = None
  /\ dotsOf (drawText canvas_width px cx y lh i ls) = []
  /\ textFonts (drawText canvas_width px cx y lh i ls) = map (fun _ => px) ls.
Proof.
  revert i. induction ls as [|l ls IH]; intro i; simpl.
  - repeat split.
  - destruct (IH (S i)) as (Hb & Ht & Hc & Hd & Hf).
    repeat split; try assumption. now rewrite Hf.
Qed.

(** The running maximum of [textBlockWidth]. *)
Lemma running_max (m : string -> Q) (ls : list string) (a : Q) :
  let r := fold_left (fun acc l => if Qltb acc (m l) then m l else acc) ls a in
  a <= r /\ (forall l, In l ls -> m l <= r)
  /\ (r = a \/ exists l, In l ls /\ r = m l).
Proof.
  revert a. induction ls as [|l ls IH]; intro a; simpl.
  - split; [apply Qle_refl|]. split; [intros l []|now left].
  - destruct (Qltb a (m l)) eqn:E.
    + apply Qltb_lt in E.
      destruct (IH (m l)) as (H1 & H2 & H3).
      split; [apply Qle_trans with (m l); [now apply Qlt_le_weak|assumption]|].
      split.
      * intros l' [<-|Hin]; [assumption|now apply H2].
      * right. destruct H3 as [->|(l' & Hin & ->)].
        -- exists l. split; [now left|reflexivity].
        -- exists l'. split; [now right|reflexivity].
    + apply Qltb_ge in E.
      destruct (IH a) as (H1 & H2 & H3).
      split; [assumption|]. split.
      * intros l' [<-|Hin]; [now apply Qle_trans with a|now apply H2].
      * destruct H3 as [->|(l' & Hin & ->)]; [now left|].
        right. exists l'. split; [now right|reflexivity].
Qed.

(** With non-negative widths, [textBlockWidth] is the width of a longest
    line. *)
Lemma textBlockWidth_longest (text : string) :
  (forall px s, 0 <= measureText px s) ->
  exists longest,
    In longest (lines measureText canvas_width text)
    /\ (forall l, In l (lines measureText canvas_width text) ->
          measureText (fontPx text) l <= measureText (fontPx text) longest)
    /\ textBlockWidth measureText canvas_width text
       == measureText (fontPx text) longest.
Proof.
  intro Hpos. unfold textBlockWidth.
  pose proof (running_max (measureText (fontPx text))
                (lines measureText canvas_width text) 0) as (H1 & H2 & H3).
  cbv zeta in *.
  set (r := fold_left _ _ _) in *.
  destruct H3 as [E|(l & Hin & E)].
  - assert (Hne : lines measureText canvas_width text <> [])
      by apply getLines_nonempty.
    destruct (lines measureText canvas_width text) as [|l0 ls] eqn:El;
      [congruence|].
    exists l0. split; [now left|]. split.
    + intros l Hl. apply Qle_trans with r; [now apply H2|].
      rewrite E. apply Hpos.
    + apply Qle_antisym.
      * rewrite E. apply Hpos.
      * apply H2. now left.
  - exists l. split; [assumption|]. split.
    + intros l' Hl'. rewrite <- E. now apply H2.
    + now rewrite E.
Qed.

Lemma SCALE_nonneg : (0 <= canvas_width)%Z -> 0 <= SCALE canvas_width.
Proof.
  intro H. unfold SCALE. apply Qle_shift_div_l; [reflexivity|].
  rewrite Qmult_0_l. change 0 with (inject_Z 0). now rewrite <- Zle_Qle.
Qed.

(** The two components of a position exclude each other. *)
Lemma posIncludes_cases (pos : BubblePosition) :
  posIncludes pos "top" = negb (posIncludes pos "bottom")
  /\ posIncludes pos "left" = negb (posIncludes pos "right").
Proof. destruct pos; split; reflexivity. Qed.

(** The trace of a standard bubble, read back. *)
Lemma standard_bubble_readers (text : string) (pos : BubblePosition)
    (shape : BubbleShape) (posX posY : option Q) :
  JsString.truthy (JsString.trim text) = true ->
  shape <> Thought ->
  let ops := drawBubble measureText canvas_width canvas_height
               text pos shape posX posY in
  let w := bubbleWidth measureText canvas_width text in
  let h := bubbleHeight measureText canvas_width text in
  let x := fst (bubbleXY canvas_width canvas_height posX posY) in
  let y := snd (bubbleXY canvas_width canvas_height posX posY) in
  let S := SCALE canvas_width in
  let baseX1 := if posIncludes pos "left" then x + 16 * S
                else x + w - 16 * S - tailSize canvas_width in
  let baseX2 := baseX1 + tailSize canvas_width in
  let coverH := borderWidth canvas_width * 2 in
  boxOf ops = Some (mkBox x y w h (radius canvas_width shape)
                          (borderWidth canvas_width))
  /\ tailOf ops
     = Some (mkTail baseX1
               (if posIncludes pos "bottom" then y else y + h)
               (if posIncludes pos "left" then baseX1 else baseX2)
               (if posIncludes pos "bottom" then y - 8 * S else y + h + 8 * S)
               baseX2)
  /\ coverOf ops
     = Some (mkCover
               (if posIncludes pos "left"
                then x + 16 * S + borderWidth canvas_width
                else x + w - 16 * S - tailSize canvas_width
                     + borderWidth canvas_width)
               (if posIncludes pos "bottom" then y - coverH / 2
                else y + h - coverH / 2)
               (tailSize canvas_width - borderWidth canvas_width * 2)
               coverH)
  /\ dotsOf ops = [].
Proof.
  intros Hshown Hshape. cbv zeta.
  rewrite drawBubble_shown by assumption. cbv zeta.
  set (w := bubbleWidth _ _ _). set (h := bubbleHeight _ _ _).
  set (x := fst _). set (y := snd _).
  pose proof (drawText_readers (fontPx text) (x + w / 2) y (lineHeight text)
                0%nat (lines measureText canvas_width text))
    as (_ & _ & _ & Hd & _).
  assert (Hops : (match shape with
                  | Thought => drawDots canvas_width pos x y w h
                  | _ => drawTail canvas_width pos x y w h
                  end) = drawTail canvas_width pos x y w h)
    by (destruct shape; congruence).
  rewrite Hops. unfold drawTail.
  destruct (posIncludes pos "bottom"), (posIncludes pos "left");
    cbn [boxOf tailOf coverOf dotsOf app]; rewrite Hd; repeat split.
Qed.

(** The trace of a thought bubble, read back. *)
Lemma thought_bubble_readers (text : string) (pos : BubblePosition)
    (posX posY : option Q) :
  JsString.truthy (JsString.trim text) = true ->
  let ops := drawBubble measureText canvas_width canvas_height
               text pos Thought posX posY in
  let w := bubbleWidth measureText canvas_width text in
  let h := bubbleHeight measureText canvas_width text in
  let x := fst (bubbleXY canvas_width canvas_height posX posY) in
  let y := snd (bubbleXY canvas_width canvas_height posX posY) in
  let S := SCALE canvas_width in
  let dotX := if posIncludes pos "right" then x + w - (40 * S * 0.5)
              else x + (40 * S * 0.5) in
  let dotY := if posIncludes pos "bottom" then y - (15 * S * 0.5)
              else y + h + (15 * S * 0.5) in
  boxOf ops = Some (mkBox x y w h (RADIUS_THOUGHT canvas_width)
                          (borderWidth canvas_width))
  /\ tailOf ops = None
  /\ coverOf ops = None
  /\ dotsOf ops
     = [ mkDot dotX dotY (8 * S * 0.4);
         mkDot (dotX + (if posIncludes pos "right" then 10 * S * 0.5
                        else - (10 * S * 0.5)))
               (dotY + (if posIncludes pos "bottom" then - (15 * S * 0.5)
                        else 15 * S * 0.5))
               (4 * S * 0.4) ].
Proof.
  intros Hshown. cbv zeta.
  rewrite drawBubble_shown by assumption. cbv zeta.
  set (w := bubbleWidth _ _ _). set (h := bubbleHeight _ _ _).
  set (x := fst _). set (y := snd _).
  pose proof (drawText_readers (fontPx text) (x + w / 2) y (lineHeight text)
                0%nat (lines measureText canvas_width text))
    as (_ & Ht & Hc & Hd & _).
  unfold drawDots.
  cbn [boxOf tailOf coverOf dotsOf app radius].
  rewrite Ht, Hc, Hd. repeat split.
Qed.

End RasterFacts.

Lemma monospace_nonneg (px : Z) (s : string) : 0 <= monospace px s.
Proof.
  unfold monospace. apply Qle_shift_div_l; [reflexivity|].
  rewrite Qmult_0_l. change 0 with (inject_Z 0). rewrite <- Zle_Qle.
  apply Z.mul_nonneg_nonneg; lia.
Qed.

(** ** Raster compositor: box and position *)

Section BoxClaims.

Variable measureText : Z -> string -> Q.
Variables canvas_width canvas_height : Z.

(** C5.  For a bubble that is not skipped and has both percentages, the box
    drawn is as wide as the longest line plus twice the padding, and at
    least the minimum width; as high as the number of lines times the line
    height [fontSize * 1.1] plus twice the padding; and its top-left corner
    is at [canvas.width * xPct/100], [canvas.height * yPct/100]. *)
Theorem bubble_box_formulas (text : string) (pos : BubblePosition)
    (shape : BubbleShape) (xPct yPct : Q) :
  JsString.truthy (JsString.trim text) = true ->
  (forall px s, 0 <= measureText px s) ->
  let wrapped := lines measureText canvas_width text in
  let width := measureText (fontPx text) in
  exists b longest,
    boxOf (drawBubble measureText canvas_width canvas_height
             text pos shape (Some xPct) (Some yPct)) = Some b
    /\ In longest wrapped
    /\ (forall l, In l wrapped -> width l <= width longest)
    /\ box_w b == Qmax (width longest + 2 * PADDING canvas_width)
                       (MIN_WIDTH canvas_width)
    /\ box_h b == inject_Z (Z.of_nat (List.length wrapped))
                  * (fontSize text * 1.1)
                  + 2 * PADDING canvas_width
    /\ box_x b == inject_Z canvas_width * (xPct / 100)
    /\ box_y b == inject_Z canvas_height * (yPct / 100).
Proof.
  intros Hshown Hpos wrapped width.
  destruct (textBlockWidth_longest measureText canvas_width text Hpos)
    as (longest & Hin & Hmax & Hw).
  rewrite drawBubble_shown by assumption. cbv zeta. cbn [boxOf].
  eexists. exists longest.
  split; [reflexivity|]. cbn [box_w box_h box_x box_y bubbleXY fst snd].
  split; [exact Hin|]. split; [exact Hmax|].
  split; [|split; [|split; reflexivity]].
  - unfold bubbleWidth. fold width in Hw.
    destruct (Q.max_spec (textBlockWidth measureText canvas_width text
                          + PADDING canvas_width * 2) (MIN_WIDTH canvas_width))
      as [[H1 ->]|[H1 ->]];
    destruct (Q.max_spec (width longest + 2 * PADDING canvas_width)
                         (MIN_WIDTH canvas_width))
      as [[H2 ->]|[H2 ->]]; lra.
  - unfold bubbleHeight, lineHeight. fold wrapped. lra.
Qed.

(** C10.  A bubble that is not skipped and lacks either percentage is drawn
    with its top-left corner at the pixel (30, 30), whatever the canvas
    size; the overlay defaults a missing coordinate of character 1 to 5
    percent and of character 2 to 55 percent (left) and 5 percent (top). *)
Theorem raster_fallback_position (text : string) (pos : BubblePosition)
    (shape : BubbleShape) (posX posY : option Q) :
  JsString.truthy (JsString.trim text) = true ->
  posX = None \/ posY = None ->
  (exists b,
     boxOf (drawBubble measureText canvas_width canvas_height
              text pos shape posX posY) = Some b
     /\ box_x b = 30 /\ box_y b = 30)
  /\ (forall panel,
        (char1BubbleX panel = None -> leftPct (char1Bubble panel) = 5)
        /\ (char1BubbleY panel = None -> topPct (char1Bubble panel) = 5)
        /\ (char2BubbleX panel = None -> leftPct (char2Bubble panel) = 55)
        /\ (char2BubbleY panel = None -> topPct (char2Bubble panel) = 5)).
Proof.
  intros Hshown Hmiss. split.
  - rewrite drawBubble_shown by assumption. cbv zeta. cbn [boxOf].
    eexists. split; [reflexivity|]. cbn [box_x box_y].
    destruct Hmiss as [-> | ->]; [|destruct posX]; split; reflexivity.
  - intro panel. unfold char1Bubble, char2Bubble. cbn [leftPct topPct].
    repeat split; intros ->; reflexivity.
Qed.

End BoxClaims.

(** A 1024 by 1024 canvas, "Hello there, friend!" at (5, 5), fixed-pitch
    measurement. *)
Lemma bubble_box_formulas_witness :
  let wrapped := lines monospace 1024 "Hello there, friend!" in
  let width := monospace (fontPx "Hello there, friend!") in
  exists b longest,
    boxOf (drawBubble monospace 1024 1024 "Hello there, friend!"
             TopLeft Rounded (Some 5) (Some 5)) = Some b
    /\ In longest wrapped
    /\ (forall l, In l wrapped -> width l <= width longest)
    /\ box_w b == Qmax (width longest + 2 * PADDING 1024) (MIN_WIDTH 1024)
    /\ box_h b == inject_Z (Z.of_nat (List.length wrapped))
                  * (fontSize "Hello there, friend!" * 1.1)
                  + 2 * PADDING 1024
    /\ box_x b == inject_Z 1024 * (5 / 100)
    /\ box_y b == inject_Z 1024 * (5 / 100).
Proof.
  apply (bubble_box_formulas monospace 1024 1024 "Hello there, friend!"
           TopLeft Rounded 5 5).
  - reflexivity.
  - exact monospace_nonneg.
Defined.

(** A thought bubble of character 2 with no horizontal percentage, on a
    1024 by 768 canvas. *)
Lemma raster_fallback_position_witness :
  (exists b,
     boxOf (drawBubble monospace 1024 768 "Hmm..." TopRight Thought
              None (Some 5)) = Some b
     /\ box_x b = 30 /\ box_y b = 30)
  /\ (forall panel,
        (char1BubbleX panel = None -> leftPct (char1Bubble panel) = 5)
        /\ (char1BubbleY panel = None -> topPct (char1Bubble panel) = 5)
        /\ (char2BubbleX panel = None -> leftPct (char2Bubble panel) = 55)
        /\ (char2BubbleY panel = None -> topPct (char2Bubble panel) = 5)).
Proof.
  apply (raster_fallback_position monospace 1024 768 "Hmm..." TopRight
           Thought None (Some 5)).
  - reflexivity.
  - left. reflexivity.
Defined.

(** ** Raster compositor: tails, cover and dots *)

Section TailClaims.

Variable measureText : Z -> string -> Q.
Variables canvas_width canvas_height : Z.

(** C7.  For a standard bubble that is not skipped, the tail base drawn for
    a left anchor is [x + offset, x + offset + tailSize] and the one drawn
    for the matching right anchor, the box being the same, is
    [x + width - offset - tailSize, x + width - offset]: each is the mirror
    image of the other around the horizontal centre of the box. *)
Theorem tail_base_mirror (text : string) (shape : BubbleShape)
    (posL posR : BubblePosition) (posX posY : option Q) :
  JsString.truthy (JsString.trim text) = true ->
  shape <> Thought ->
  posIncludes posL "left" = true ->
  posIncludes posR "right" = true ->
  posIncludes posL "bottom" = posIncludes posR "bottom" ->
  let opsL := drawBubble measureText canvas_width canvas_height
                text posL shape posX posY in
  let opsR := drawBubble measureText canvas_width canvas_height
                text posR shape posX posY in
  let offset := 16 * SCALE canvas_width in
  exists b tl tr,
    boxOf opsL = Some b /\ boxOf opsR = Some b
    /\ tailOf opsL = Some tl /\ tailOf opsR = Some tr
    /\ tail_x1 tl == box_x b + offset
    /\ tail_x2 tl == box_x b + offset + tailSize canvas_width
    /\ tail_x1 tr == box_x b + box_w b - offset - tailSize canvas_width
    /\ tail_x2 tr == box_x b + box_w b - offset
    /\ tail_baseY tl == tail_baseY tr
    /\ (let centre := box_x b + box_w b / 2 in
        tail_x1 tr == 2 * centre - tail_x2 tl
        /\ tail_x2 tr == 2 * centre - tail_x1 tl).
Proof.
  intros Hshown Hshape HL HR Hv opsL opsR offset.
  destruct (standard_bubble_readers measureText canvas_width canvas_height
              text posL shape posX posY Hshown Hshape) as (HbL & HtL & _).
  destruct (standard_bubble_readers measureText canvas_width canvas_height
              text posR shape posX posY Hshown Hshape) as (HbR & HtR & _).
  cbv zeta in HbL, HtL, HbR, HtR.
  destruct (posIncludes_cases posR) as [_ HlR].
  rewrite HR in HlR. cbn [negb] in HlR.
  rewrite HL, Hv in HtL. rewrite HlR in HtR.
  do 3 eexists.
  split; [exact HbL|]. split; [exact HbR|].
  split; [exact HtL|]. split; [exact HtR|].
  cbn [box_x box_w tail_x1 tail_x2 tail_baseY]. subst offset. cbv zeta.
  repeat split; try reflexivity; try lra; field.
Qed.

(** C8.  For a standard bubble that is not skipped, the white patch over
    the seam is [tailSize - 2 * borderWidth] wide, which is no more than
    the tail base, and it lies within the tail base; it is
    [2 * borderWidth] high and covers the border stroke, [borderWidth]
    thick and centred on the edge the tail is glued to. *)
Theorem cover_mask_bounds (text : string) (pos : BubblePosition)
    (shape : BubbleShape) (posX posY : option Q) :
  (0 <= canvas_width)%Z ->
  JsString.truthy (JsString.trim text) = true ->
  shape <> Thought ->
  let ops := drawBubble measureText canvas_width canvas_height
               text pos shape posX posY in
  exists b tl cv,
    boxOf ops = Some b /\ tailOf ops = Some tl /\ coverOf ops = Some cv
    /\ box_lineWidth b == borderWidth canvas_width
    /\ tail_x2 tl - tail_x1 tl == tailSize canvas_width
    /\ (tail_baseY tl == box_y b \/ tail_baseY tl == box_y b + box_h b)
    /\ cover_w cv == tailSize canvas_width - 2 * borderWidth canvas_width
    /\ cover_w cv <= tail_x2 tl - tail_x1 tl
    /\ tail_x1 tl <= cover_x cv
    /\ cover_x cv + cover_w cv <= tail_x2 tl
    /\ cover_h cv == 2 * borderWidth canvas_width
    /\ cover_y cv <= tail_baseY tl - box_lineWidth b / 2
    /\ tail_baseY tl + box_lineWidth b / 2 <= cover_y cv + cover_h cv.
Proof.
  intros Hcw Hshown Hshape ops.
  destruct (standard_bubble_readers measureText canvas_width canvas_height
              text pos shape posX posY Hshown Hshape) as (Hb & Ht & Hc & _).
  cbv zeta in Hb, Ht, Hc.
  pose proof (SCALE_nonneg canvas_width Hcw) as HS.
  do 3 eexists.
  split; [exact Hb|]. split; [exact Ht|]. split; [exact Hc|].
  cbn [box_x box_y box_h box_lineWidth tail_x1 tail_x2 tail_baseY
       cover_x cover_y cover_w cover_h].
  unfold tailSize, borderWidth.
  destruct (posIncludes pos "left"), (posIncludes pos "bottom");
    repeat split; try (left; reflexivity); try (right; reflexivity);
    unfold Qdiv; change (/ 2) with (1 # 2); lra.
Qed.

(** C6.  A thought bubble that is not skipped gets no triangular tail and
    no cover patch in the raster compositor, but two dots: the second is
    smaller than the first; for a top anchor the first lies under the
    bottom edge of the box and the second under the first, for a bottom
    anchor the first lies over the top edge and the second over the first.
    In the overlay the tail and the cover of a thought bubble are hidden
    and the dots are rendered, below the bubble for a top anchor and above
    it for a bottom anchor, the large dot next to the bubble. *)
Theorem thought_suppression (text : string) (pos : BubblePosition)
    (posX posY : option Q) :
  (0 < canvas_width)%Z ->
  JsString.truthy (JsString.trim text) = true ->
  let ops := drawBubble measureText canvas_width canvas_height
               text pos Thought posX posY in
  (tailOf ops = None /\ coverOf ops = None
   /\ exists b big small,
        boxOf ops = Some b /\ dotsOf ops = [big; small]
        /\ 0 < dot_r small /\ dot_r small < dot_r big
        /\ (posIncludes pos "top" = true ->
              box_y b + box_h b < dot_cy big - dot_r big
              /\ dot_cy big + dot_r big < dot_cy small - dot_r small)
        /\ (posIncludes pos "bottom" = true ->
              dot_cy big + dot_r big < box_y b
              /\ dot_cy small + dot_r small < dot_cy big - dot_r big))
  /\ (forall panel,
        (char1BubbleShape panel = Some Thought ->
           tailClass (char1Bubble panel) = "hidden"
           /\ tailCoverClass (char1Bubble panel) = "hidden"
           /\ exists t,
                thoughtTail (char1Bubble panel) = Some t
                /\ (posIncludes (orDefault (char1BubblePos panel) TopLeft)
                      "top" = true -> thoughtTailBelow t)
                /\ (posIncludes (orDefault (char1BubblePos panel) TopLeft)
                      "bottom" = true -> thoughtTailAbove t))
        /\ (char2BubbleShape panel = Some Thought ->
              tailClass (char2Bubble panel) = "hidden"
              /\ tailCoverClass (char2Bubble panel) = "hidden"
              /\ exists t,
                   thoughtTail (char2Bubble panel) = Some t
                   /\ (posIncludes (orDefault (char2BubblePos panel) TopRight)
                         "top" = true -> thoughtTailBelow t)
                   /\ (posIncludes (orDefault (char2BubblePos panel) TopRight)
                         "bottom" = true -> thoughtTailAbove t))).
Proof.
  intros Hcw Hshown ops. split.
  - destruct (thought_bubble_readers measureText canvas_width canvas_height
                text pos posX posY Hshown) as (Hb & Ht & Hc & Hd).
    cbv zeta in Hb, Ht, Hc, Hd.
    pose proof (SCALE_pos canvas_width Hcw) as HS.
    split; [exact Ht|]. split; [exact Hc|].
    do 3 eexists. split; [exact Hb|]. split; [exact Hd|].
    cbn [box_y box_h dot_cy dot_r].
    destruct (posIncludes_cases pos) as [Htop _].
    rewrite Htop.
    destruct (posIncludes pos "bottom"); cbn [negb];
      repeat split; intros; try discriminate; lra.
  - intro panel. split; intros Hs.
    + unfold char1Bubble.
      cbn [tailClass tailCoverClass thoughtTail]. rewrite Hs.
      split; [reflexivity|]. split; [reflexivity|].
      eexists. split; [reflexivity|].
      destruct (char1BubblePos panel) as [[]|]; split; intros Hp;
        try discriminate Hp; repeat split.
    + unfold char2Bubble.
      cbn [tailClass tailCoverClass thoughtTail]. rewrite Hs.
      split; [reflexivity|]. split; [reflexivity|].
      eexists. split; [reflexivity|].
      destruct (char2BubblePos panel) as [[]|]; split; intros Hp;
        try discriminate Hp; repeat split.
Qed.

End TailClaims.

(** "Hello there, friend!" anchored top-left and top-right on a 1024 by
    1024 canvas. *)
Lemma tail_base_mirror_witness :
  let opsL := drawBubble monospace 1024 1024 "Hello there, friend!"
                TopLeft Rounded (Some 5) (Some 5) in
  let opsR := drawBubble monospace 1024 1024 "Hello there, friend!"
                TopRight Rounded (Some 5) (Some 5) in
  let offset := 16 * SCALE 1024 in
  exists b tl tr,
    boxOf opsL = Some b /\ boxOf opsR = Some b
    /\ tailOf opsL = Some tl /\ tailOf opsR = Some tr
    /\ tail_x1 tl == box_x b + offset
    /\ tail_x2 tl == box_x b + offset + tailSize 1024
    /\ tail_x1 tr == box_x b + box_w b - offset - tailSize 1024
    /\ tail_x2 tr == box_x b + box_w b - offset
    /\ tail_baseY tl == tail_baseY tr
    /\ (let centre := box_x b + box_w b / 2 in
        tail_x1 tr == 2 * centre - tail_x2 tl
        /\ tail_x2 tr == 2 * centre - tail_x1 tl).
Proof.
  apply (tail_base_mirror monospace 1024 1024 "Hello there, friend!"
           Rounded TopLeft TopRight (Some 5) (Some 5)).
  - reflexivity.
  - discriminate.
  - reflexivity.
  - reflexivity.
  - reflexivity.
Defined.

(** A square bubble anchored bottom-right on a 1024 by 1024 canvas. *)
Lemma cover_mask_bounds_witness :
  let ops := drawBubble monospace 1024 1024 "Look out!" BottomRight Square
               (Some 55) (Some 70) in
  exists b tl cv,
    boxOf ops = Some b /\ tailOf ops = Some tl /\ coverOf ops = Some cv
    /\ box_lineWidth b == borderWidth 1024
    /\ tail_x2 tl - tail_x1 tl == tailSize 1024
    /\ (tail_baseY tl == box_y b \/ tail_baseY tl == box_y b + box_h b)
    /\ cover_w cv == tailSize 1024 - 2 * borderWidth 1024
    /\ cover_w cv <= tail_x2 tl - tail_x1 tl
    /\ tail_x1 tl <= cover_x cv
    /\ cover_x cv + cover_w cv <= tail_x2 tl
    /\ cover_h cv == 2 * borderWidth 1024
    /\ cover_y cv <= tail_baseY tl - box_lineWidth b / 2
    /\ tail_baseY tl + box_lineWidth b / 2 <= cover_y cv + cover_h cv.
Proof.
  apply (cover_mask_bounds monospace 1024 1024 "Look out!" BottomRight
           Square (Some 55) (Some 70)).
  - lia.
  - reflexivity.
  - discriminate.
Defined.

(** A thought bubble anchored bottom-left on a 1024 by 1024 canvas. *)
Lemma thought_suppression_witness :
  let ops := drawBubble monospace 1024 1024 "Hmm..." BottomLeft Thought
               (Some 5) (Some 70) in
  (tailOf ops = None /\ coverOf ops = None
   /\ exists b big small,
        boxOf ops = Some b /\ dotsOf ops = [big; small]
        /\ 0 < dot_r small /\ dot_r small < dot_r big
        /\ (posIncludes BottomLeft "top" = true ->
              box_y b + box_h b < dot_cy big - dot_r big
              /\ dot_cy big + dot_r big < dot_cy small - dot_r small)
        /\ (posIncludes BottomLeft "bottom" = true ->
              dot_cy big + dot_r big < box_y b
              /\ dot_cy small + dot_r small < dot_cy big - dot_r big))
  /\ (forall panel,
        (char1BubbleShape panel = Some Thought ->
           tailClass (char1Bubble panel) = "hidden"
           /\ tailCoverClass (char1Bubble panel) = "hidden"
           /\ exists t,
                thoughtTail (char1Bubble panel) = Some t
                /\ (posIncludes (orDefault (char1BubblePos panel) TopLeft)
                      "top" = true -> thoughtTailBelow t)
                /\ (posIncludes (orDefault (char1BubblePos panel) TopLeft)
                      "bottom" = true -> thoughtTailAbove t))
        /\ (char2BubbleShape panel = Some Thought ->
              tailClass (char2Bubble panel) = "hidden"
              /\ tailCoverClass (char2Bubble panel) = "hidden"
              /\ exists t,
                   thoughtTail (char2Bubble panel) = Some t
                   /\ (posIncludes (orDefault (char2BubblePos panel) TopRight)
                         "top" = true -> thoughtTailBelow t)
                   /\ (posIncludes (orDefault (char2BubblePos panel) TopRight)
                         "bottom" = true -> thoughtTailAbove t))).
Proof.
  apply (thought_suppression monospace 1024 1024 "Hmm..." BottomLeft
           (Some 5) (Some 70)).
  - lia.
  - reflexivity.
Defined.

(** ** Quick position *)

(** C9.  Whatever the panels hold, the quick-position action leaves the
    panel it addresses with the chosen corner as anchor and with the pair
    of that corner as percentages: top-left (5, 5), top-right (55, 5),
    bottom-left (5, 70), bottom-right (55, 70); for the first character
    when [isChar1], else for the second. *)
Theorem quick_position_deterministic (panels : list PanelData)
    (panelId : string) (pos : BubblePosition) (isChar1 : bool)
    (n : nat) (p : PanelData) :
  nth_error panels n = Some p ->
  id p = panelId ->
  let canonical :=
    match pos with
    | TopLeft => (5, 5)
    | TopRight => (55, 5)
    | BottomLeft => (5, 70)
    | BottomRight => (55, 70)
    end in
  exists p',
    nth_error (handleQuickPos panelId pos isChar1 panels) n = Some p'
    /\ id p' = panelId
    /\ if isChar1
       then char1BubblePos p' = Some pos
            /\ char1BubbleX p' = Some (fst canonical)
            /\ char1BubbleY p' = Some (snd canonical)
       else char2BubblePos p' = Some pos
            /\ char2BubbleX p' = Some (fst canonical)
            /\ char2BubbleY p' = Some (snd canonical).
Proof.
  intros Hn Hid canonical.
  unfold handleQuickPos, updatePanel.
  rewrite nth_error_map, Hn. cbn [option_map].
  assert (E : String.eqb (id p) panelId = true) by now apply String.eqb_eq.
  rewrite E. eexists. split; [reflexivity|]. split; [exact Hid|].
  subst canonical. destruct isChar1, pos; repeat split.
Qed.

(** The panels the action does not address are left as they were. *)
Lemma quick_position_others (panels : list PanelData) (panelId : string)
    (pos : BubblePosition) (isChar1 : bool) (n : nat) (p : PanelData) :
  nth_error panels n = Some p ->
  id p <> panelId ->
  nth_error (handleQuickPos panelId pos isChar1 panels) n = Some p.
Proof.
  intros Hn Hid. unfold handleQuickPos, updatePanel.
  rewrite nth_error_map, Hn. cbn [option_map].
  apply String.eqb_neq in Hid. now rewrite Hid.
Qed.

(** Top-right on a panel of a thought bubble parked at (12, 80). *)
Lemma quick_position_deterministic_witness :
  let p := {| id := "panel-7"; index := 0;
              char1Dialogue := "Hmm..."; char1BubblePos := Some BottomLeft;
              char1BubbleShape := Some Thought;
              char1BubbleX := Some 12; char1BubbleY := Some 80;
              char2Dialogue := ""; char2BubblePos := None;
              char2BubbleShape := None;
              char2BubbleX := None; char2BubbleY := None;
              imageUrl := None; isLoading := false |} in
  exists p',
    nth_error (handleQuickPos "panel-7" TopRight true [p]) 0 = Some p'
    /\ id p' = "panel-7"
    /\ char1BubblePos p' = Some TopRight
    /\ char1BubbleX p' = Some 55
    /\ char1BubbleY p' = Some 5.
Proof.
  intro p.
  apply (quick_position_deterministic [p] "panel-7" TopRight true 0 p).
  - reflexivity.
  - reflexivity.
Defined.

(** ** Scale *)

Section ScaleFacts.

Variable measureText : Z -> string -> Q.

(** The constants taken from [SCALE] are proportional to the canvas width. *)
Lemma scaled_constants (k w : Z) :
  SCALE (k * w) == inject_Z k * SCALE w
  /\ PADDING (k * w) == inject_Z k * PADDING w
  /\ RADIUS_XL (k * w) == inject_Z k * RADIUS_XL w
  /\ RADIUS_SM (k * w) == inject_Z k * RADIUS_SM w
  /\ RADIUS_THOUGHT (k * w) == inject_Z k * RADIUS_THOUGHT w
  /\ MIN_WIDTH (k * w) == inject_Z k * MIN_WIDTH w
  /\ tailSize (k * w) == inject_Z k * tailSize w
  /\ borderWidth (k * w) == inject_Z k * borderWidth w.
Proof.
  unfold PADDING, RADIUS_XL, RADIUS_SM, RADIUS_THOUGHT, MIN_WIDTH, tailSize,
    borderWidth, SCALE.
  rewrite inject_Z_mult. repeat split; field.
Qed.

(** The box of a one-word text is one line high, whatever the
    measurement. *)
Lemma one_word_height (w : Z) (text : string) :
  JsString.split text = [text] ->
  bubbleHeight measureText w text == fontSize text * 1.1 + PADDING w * 2.
Proof.
  intro H. unfold bubbleHeight, lines, getLines, lineHeight. rewrite H.
  cbn [getLines_loop app List.length Z.of_nat]. 
  change (inject_Z (Z.pos (Pos.of_succ_nat 0))) with 1. ring.
Qed.

(** A one-word text keeps its box height in proportion to the canvas
    width at no scale factor but 1. *)
Lemma one_word_height_scales_only_at_one (k : Z) (text : string) :
  JsString.split text = [text] ->
  bubbleHeight measureText (k * 320) text
  == inject_Z k * bubbleHeight measureText 320 text ->
  k = 1%Z.
Proof.
  intros Hw H. rewrite !one_word_height in H by assumption.
  destruct (scaled_constants k 320) as (_ & Hp & _). rewrite Hp in H.
  assert (Hk : inject_Z k == 1).
  { unfold fontSize, PADDING, SCALE in H.
    destruct (String.length text <? 20)%nat;
      [|destruct (String.length text <? 50)%nat];
      unfold Qdiv in H; change (/ 320) with (1 # 320) in H; lra. }
  apply inject_Z_injective. exact Hk.
Qed.

(** C1, evaluated.  "Hi" at (5, 5) on canvases 320, 640 and 1024 wide
    (scale factors 1, 2 and 3.2), for every measurement: padding and radius
    follow the scale factor, but the font stays at 38 pixels and the box
    height goes from 57.8 to 73.8 and 93 pixels, which is neither the
    double nor 3.2 times the first. *)
Theorem box_height_not_scaled :
  let at1 := drawBubble measureText 320 320 "Hi" TopLeft Rounded
               (Some 5) (Some 5) in
  let at2 := drawBubble measureText 640 640 "Hi" TopLeft Rounded
               (Some 5) (Some 5) in
  let at3 := drawBubble measureText 1024 1024 "Hi" TopLeft Rounded
               (Some 5) (Some 5) in
  SCALE 320 == 1 /\ SCALE 640 == 2 /\ SCALE 1024 == 3.2
  /\ PADDING 640 == 2 * PADDING 320 /\ PADDING 1024 == 3.2 * PADDING 320
  /\ exists b1 b2 b3,
       boxOf at1 = Some b1 /\ boxOf at2 = Some b2 /\ boxOf at3 = Some b3
       /\ box_radius b2 == 2 * box_radius b1
       /\ box_radius b3 == 3.2 * box_radius b1
       /\ box_h b1 == 57.8 /\ box_h b2 == 73.8 /\ box_h b3 == 93
       /\ ~ box_h b2 == 2 * box_h b1
       /\ ~ box_h b3 == 3.2 * box_h b1
       /\ textFonts at1 = [38%Z] /\ textFonts at2 = [38%Z]
       /\ textFonts at3 = [38%Z].
Proof.
  cbv zeta.
  do 5 (split; [reflexivity|]).
  do 3 eexists.
  do 3 (split; [reflexivity|]).
  cbn [box_radius box_h].
  assert (H1 : bubbleHeight measureText 320 "Hi" == 57.8)
    by (rewrite one_word_height by reflexivity; reflexivity).
  assert (H2 : bubbleHeight measureText 640 "Hi" == 73.8)
    by (rewrite one_word_height by reflexivity; reflexivity).
  assert (H3 : bubbleHeight measureText 1024 "Hi" == 93)
    by (rewrite one_word_height by reflexivity; reflexivity).
  do 2 (split; [reflexivity|]).
  split; [exact H1|]. split; [exact H2|]. split; [exact H3|].
  split; [rewrite H1, H2; discriminate|].
  split; [rewrite H1, H3; discriminate|].
  repeat split.
Qed.

End ScaleFacts.

(** ** Skipped bubbles *)

Section SkipFacts.

Variable measureText : Z -> string -> Q.
Variables canvas_width canvas_height : Z.

(** The raster compositor draws no bubble for texts made of white space. *)
Lemma raster_skips_blank_text (panel : PanelData) :
  JsString.allWhiteSpace (char1Dialogue panel) = true ->
  JsString.allWhiteSpace (char2Dialogue panel) = true ->
  bubbleOps (drawPanel measureText canvas_width canvas_height panel) = [].
Proof.
  intros H1 H2. unfold drawPanel.
  rewrite !drawBubble_skipped by assumption.
  destruct (JsString.truthy (char1Dialogue panel)),
           (JsString.truthy (char2Dialogue panel)); reflexivity.
Qed.

(** The overlay renders no bubble for empty texts. *)
Lemma overlay_skips_empty_text (panel : PanelData) :
  char1Dialogue panel = EmptyString ->
  char2Dialogue panel = EmptyString ->
  ComicPanel_bubbles panel = [].
Proof.
  intros H1 H2. unfold ComicPanel_bubbles. rewrite H1, H2.
  now destruct (negb (isLoading panel) && hasImage panel).
Qed.

(** The overlay renders a bubble for every text that is not empty, white
    space or not. *)
Lemma overlay_renders_nonempty_text (panel : PanelData) :
  isLoading panel = false ->
  hasImage panel = true ->
  char1Dialogue panel <> EmptyString ->
  In (char1Bubble panel) (ComicPanel_bubbles panel).
Proof.
  intros Hl Hi Hd. unfold ComicPanel_bubbles. rewrite Hl, Hi. cbn [negb andb].
  destruct (char1Dialogue panel) eqn:E; [congruence|].
  cbn [JsString.truthy]. now left.
Qed.

(** C4, evaluated.  A panel whose first dialogue is one space: the raster
    compositor draws the image and the attribution only, the overlay
    renders the bubble of character 1 around the space. *)
Theorem blank_dialogue_renderers_differ :
  let panel := {| id := "panel-1"; index := 0;
                  char1Dialogue := " "; char1BubblePos := Some TopLeft;
                  char1BubbleShape := Some Rounded;
                  char1BubbleX := Some 5; char1BubbleY := Some 5;
                  char2Dialogue := ""; char2BubblePos := Some TopRight;
                  char2BubbleShape := Some Rounded;
                  char2BubbleX := Some 55; char2BubbleY := Some 5;
                  imageUrl := Some "data:image/png;base64,iVBORw0KGgo=";
                  isLoading := false |} in
  JsString.allWhiteSpace (char1Dialogue panel) = true
  /\ (exists ops,
        generateDownloadableImage measureText 1024 1024 panel = Some ops
        /\ bubbleOps ops = [])
  /\ ComicPanel_bubbles panel = [char1Bubble panel]
  /\ content (char1Bubble panel) = " ".
Proof.
  cbv zeta. split; [reflexivity|]. split.
  - eexists. split; reflexivity.
  - split; reflexivity.
Qed.

End SkipFacts.

(** * Further properties *)

(** ** Raster compositor: the text inside the box *)

Section TextInBox.

Variable measureText : Z -> string -> Q.
Variables canvas_width canvas_height : Z.

Lemma SCALE_unfold : SCALE canvas_width == inject_Z canvas_width * (1 # 320).
Proof. unfold SCALE, Qdiv. reflexivity. Qed.

Lemma lineHeight_pos (text : string) : 0 < lineHeight text.
Proof.
  unfold lineHeight, fontSize.
  destruct (String.length text <? 20)%nat;
    [|destruct (String.length text <? 50)%nat]; reflexivity.
Qed.

Lemma textsOf_drawText_lines (px : Z) (cx y lh : Q) (i : nat)
    (ls : list string) :
  map text_line (textsOf (drawText canvas_width px cx y lh i ls)) = ls
  /\ Forall (fun t => text_px t = px)
            (textsOf (drawText canvas_width px cx y lh i ls)).
Proof.
  revert i. induction ls as [|l ls IH]; intro i; simpl.
  - split; constructor.
  - destruct (IH (S i)) as [H1 H2]. split.
    + now rewrite H1.
    + constructor; [reflexivity|assumption].
Qed.

Lemma in_textsOf_drawText (px : Z) (cx y lh : Q) (i : nat)
    (ls : list string) (t : TextGeom) :
  In t (textsOf (drawText canvas_width px cx y lh i ls)) ->
  exists k l,
    (k < List.length ls)%nat /\ In l ls
    /\ t = mkText px l cx
             (y + PADDING canvas_width + inject_Z (Z.of_nat (i + k)) * lh).
Proof.
  revert i. induction ls as [|l ls IH]; intro i; simpl; [intros []|].
  intros [<-|Hin].
  - exists 0%nat, l. rewrite Nat.add_0_r.
    split; [lia|]. split; [now left|reflexivity].
  - destruct (IH (S i) Hin) as (k & l' & Hk & Hl & ->).
    exists (S k), l'. split; [lia|]. split; [now right|].
    now replace (i + S k)%nat with (S i + k)%nat by lia.
Qed.

(** The text operations of a bubble are those of [drawText]. *)
Lemma textsOf_drawBubble (text : string) (pos : BubblePosition)
    (shape : BubbleShape) (posX posY : option Q) :
  JsString.truthy (JsString.trim text) = true ->
  textsOf (drawBubble measureText canvas_width canvas_height
             text pos shape posX posY)
  = textsOf
      (drawText canvas_width (fontPx text)
         (fst (bubbleXY canvas_width canvas_height posX posY)
          + bubbleWidth measureText canvas_width text / 2)
         (snd (bubbleXY canvas_width canvas_height posX posY))
         (lineHeight text) 0 (lines measureText canvas_width text)).
Proof.
  intro H. rewrite drawBubble_shown by assumption. cbv zeta.
  destruct shape; unfold drawTail, drawDots;
    destruct (posIncludes pos "bottom"); reflexivity.
Qed.

Lemma boxOf_drawBubble (text : string) (pos : BubblePosition)
    (shape : BubbleShape) (posX posY : option Q) :
  JsString.truthy (JsString.trim text) = true ->
  boxOf (drawBubble measureText canvas_width canvas_height
           text pos shape posX posY)
  = Some (mkBox (fst (bubbleXY canvas_width canvas_height posX posY))
                (snd (bubbleXY canvas_width canvas_height posX posY))
                (bubbleWidth measureText canvas_width text)
                (bubbleHeight measureText canvas_width text)
                (radius canvas_width shape) (borderWidth canvas_width)).
Proof.
  intro H. rewrite drawBubble_shown by assumption. reflexivity.
Qed.

(** X1.  The lines written into a bubble that is not skipped are, joined with
    single spaces, the dialogue itself, and each is written in the font of
    the tier of the dialogue. *)
Theorem drawn_text_is_dialogue (text : string) (pos : BubblePosition)
    (shape : BubbleShape) (posX posY : option Q) :
  JsString.truthy (JsString.trim text) = true ->
  let ops := drawBubble measureText canvas_width canvas_height
               text pos shape posX posY in
  JsString.join (map text_line (textsOf ops)) = text
  /\ Forall (fun t => text_px t = fontPx text) (textsOf ops)
  /\ textsOf ops <> [].
Proof.
  intros H ops. subst ops. rewrite textsOf_drawBubble by assumption.
  match goal with
  | |- context [drawText ?cw ?px ?cx ?y ?lh ?i ?ls] =>
      destruct (textsOf_drawText_lines px cx y lh i ls) as [H1 H2]
  end.
  rewrite H1. split; [apply getLines_join|]. split; [exact H2|].
  intro E. rewrite E in H1. simpl in H1.
  symmetry in H1. revert H1. apply getLines_nonempty.
Qed.

(** X2.  Every line written into a bubble fits between the paddings of the box,
    which is never narrower than the minimum width, and is centred on the
    box. *)
Theorem text_fits_box_width (text : string) (pos : BubblePosition)
    (shape : BubbleShape) (posX posY : option Q) :
  JsString.truthy (JsString.trim text) = true ->
  let ops := drawBubble measureText canvas_width canvas_height
               text pos shape posX posY in
  exists b,
    boxOf ops = Some b
    /\ MIN_WIDTH canvas_width <= box_w b
    /\ forall t, In t (textsOf ops) ->
         measureText (text_px t) (text_line t) + 2 * PADDING canvas_width
         <= box_w b
         /\ text_x t == box_x b + box_w b / 2.
Proof.
  intros H ops. subst ops. rewrite boxOf_drawBubble by assumption.
  eexists. split; [reflexivity|]. cbn [box_w box_x].
  split; [apply Q.le_max_r|].
  intros t Ht. rewrite textsOf_drawBubble in Ht by assumption.
  apply in_textsOf_drawText in Ht. destruct Ht as (k & l & _ & Hl & ->).
  cbn [text_px text_line text_x]. split; [|reflexivity].
  unfold bubbleWidth.
  pose proof (running_max (measureText (fontPx text))
                (lines measureText canvas_width text) 0) as (_ & Hmax & _).
  cbv zeta in Hmax. specialize (Hmax l Hl).
  fold (textBlockWidth measureText canvas_width text) in Hmax.
  pose proof (Q.le_max_l (textBlockWidth measureText canvas_width text
                          + PADDING canvas_width * 2)
                         (MIN_WIDTH canvas_width)).
  lra.
Qed.

(** X3.  The lines of a bubble are stacked inside the box: the first starts one
    padding under the top edge and every line ends, one line height lower,
    at least one padding over the bottom edge. *)
Theorem text_fits_box_height (text : string) (pos : BubblePosition)
    (shape : BubbleShape) (posX posY : option Q) :
  JsString.truthy (JsString.trim text) = true ->
  let ops := drawBubble measureText canvas_width canvas_height
               text pos shape posX posY in
  exists b,
    boxOf ops = Some b
    /\ forall t, In t (textsOf ops) ->
         box_y b + PADDING canvas_width <= text_y t
         /\ text_y t + lineHeight text
            <= box_y b + box_h b - PADDING canvas_width.
Proof.
  intros H ops. subst ops. rewrite boxOf_drawBubble by assumption.
  eexists. split; [reflexivity|]. cbn [box_y box_h].
  intros t Ht. rewrite textsOf_drawBubble in Ht by assumption.
  apply in_textsOf_drawText in Ht. destruct Ht as (k & l & Hk & _ & ->).
  cbn [text_y]. unfold bubbleHeight.
  pose proof (lineHeight_pos text) as Hlh.
  set (n := List.length (lines measureText canvas_width text)) in *.
  assert (Hkn : inject_Z (Z.of_nat (0 + k)) + 1 <= inject_Z (Z.of_nat n)).
  { change 1 with (inject_Z 1). rewrite <- inject_Z_plus, <- Zle_Qle. lia. }
  assert (Hk0 : 0 <= inject_Z (Z.of_nat (0 + k))).
  { change 0 with (inject_Z 0). rewrite <- Zle_Qle. lia. }
  set (a := inject_Z (Z.of_nat (0 + k))) in *.
  set (m := inject_Z (Z.of_nat n)) in *.
  set (lh := lineHeight text) in *.
  assert (H0 : 0 <= a * lh) by (apply Qmult_le_0_compat; lra).
  assert (H1 : (a + 1) * lh <= m * lh)
    by (apply Qmult_le_compat_r; lra).
  split; lra.
Qed.

(** The width of the box under the 35 percent cap. *)
Lemma bubbleWidth_within_cap (text : string) :
  (0 <= canvas_width)%Z ->
  (forall w, In w (JsString.split text) ->
     measureText (fontPx text) w
     <= maxBubbleWidth canvas_width - PADDING canvas_width * 2) ->
  bubbleWidth measureText canvas_width text <= inject_Z canvas_width * 0.35.
Proof.
  intros Hcw Hwords. unfold bubbleWidth.
  pose proof (SCALE_nonneg canvas_width Hcw) as HS.
  pose proof SCALE_unfold as HSu.
  assert (Hlines : forall l, In l (lines measureText canvas_width text) ->
            measureText (fontPx text) l
            <= maxBubbleWidth canvas_width - PADDING canvas_width * 2).
  { intros l Hl.
    pose proof (getLines_ok (measureText (fontPx text))
                  (maxBubbleWidth canvas_width - PADDING canvas_width * 2)
                  text) as Hok.
    rewrite Forall_forall in Hok. destruct (Hok l Hl) as [Hw|Hlt].
    - now apply Hwords.
    - now apply Qlt_le_weak. }
  pose proof (running_max (measureText (fontPx text))
                (lines measureText canvas_width text) 0) as (_ & _ & Hr).
  cbv zeta in Hr.
  fold (textBlockWidth measureText canvas_width text) in Hr.
  assert (Htbw : textBlockWidth measureText canvas_width text
                 <= maxBubbleWidth canvas_width - PADDING canvas_width * 2).
  { destruct Hr as [->|(l & Hl & ->)]; [|now apply Hlines].
    unfold maxBubbleWidth, PADDING. lra. }
  apply Q.max_lub; unfold maxBubbleWidth, PADDING, MIN_WIDTH in *; lra.
Qed.

(** X4.  When every word of the dialogue fits the wrap width on its own, the
    box stays within the 35 percent of the canvas width the overlay caps
    a bubble at. *)
Theorem box_width_cap (text : string) (pos : BubblePosition)
    (shape : BubbleShape) (posX posY : option Q) :
  (0 <= canvas_width)%Z ->
  JsString.truthy (JsString.trim text) = true ->
  (forall w, In w (JsString.split text) ->
     measureText (fontPx text) w
     <= maxBubbleWidth canvas_width - PADDING canvas_width * 2) ->
  exists b,
    boxOf (drawBubble measureText canvas_width canvas_height
             text pos shape posX posY) = Some b
    /\ box_w b <= inject_Z canvas_width * 0.35.
Proof.
  intros Hcw H Hwords. rewrite boxOf_drawBubble by assumption.
  eexists. split; [reflexivity|]. cbn [box_w].
  now apply bubbleWidth_within_cap.
Qed.

End TextInBox.

(** "Hello there, friend!" on a 1024 by 1024 canvas. *)
Lemma drawn_text_is_dialogue_witness :
  let ops := drawBubble monospace 1024 1024 "Hello there, friend!"
               TopLeft Rounded (Some 5) (Some 5) in
  JsString.join (map text_line (textsOf ops)) = "Hello there, friend!"
  /\ Forall (fun t => text_px t = fontPx "Hello there, friend!") (textsOf ops)
  /\ textsOf ops <> [].
Proof.
  apply (drawn_text_is_dialogue monospace 1024 1024 "Hello there, friend!"
           TopLeft Rounded (Some 5) (Some 5)).
  reflexivity.
Defined.

Lemma text_fits_box_width_witness :
  let ops := drawBubble monospace 1024 1024 "Hello there, friend!"
               TopLeft Rounded (Some 5) (Some 5) in
  exists b,
    boxOf ops = Some b
    /\ MIN_WIDTH 1024 <= box_w b
    /\ forall t, In t (textsOf ops) ->
         monospace (text_px t) (text_line t) + 2 * PADDING 1024 <= box_w b
         /\ text_x t == box_x b + box_w b / 2.
Proof.
  apply (text_fits_box_width monospace 1024 1024 "Hello there, friend!"
           TopLeft Rounded (Some 5) (Some 5)).
  reflexivity.
Defined.

Lemma text_fits_box_height_witness :
  let ops := drawBubble monospace 1024 1024 "Hello there, friend!"
               TopLeft Rounded (Some 5) (Some 5) in
  exists b,
    boxOf ops = Some b
    /\ forall t, In t (textsOf ops) ->
         box_y b + PADDING 1024 <= text_y t
         /\ text_y t + lineHeight "Hello there, friend!"
            <= box_y b + box_h b - PADDING 1024.
Proof.
  apply (text_fits_box_height monospace 1024 1024 "Hello there, friend!"
           TopLeft Rounded (Some 5) (Some 5)).
  reflexivity.
Defined.

Lemma box_width_cap_witness :
  exists b,
    boxOf (drawBubble monospace 1024 1024 "Hello there, friend!"
             TopLeft Rounded (Some 5) (Some 5)) = Some b
    /\ box_w b <= inject_Z 1024 * 0.35.
Proof.
  apply (box_width_cap monospace 1024 1024 "Hello there, friend!"
           TopLeft Rounded (Some 5) (Some 5)).
  - lia.
  - reflexivity.
  - intros w Hw. simpl in Hw.
    destruct Hw as [<-|[<-|[<-|[]]]]; vm_compute; discriminate.
Defined.

(** ** Raster compositor: tail and dots against the box *)

Section TailInBox.

Variable measureText : Z -> string -> Q.
Variables canvas_width canvas_height : Z.

(** X6.  The base of a standard tail, and its tip, lie within the horizontal
    extent of the box: the minimum width leaves room for the offset and
    the tail at either side. *)
Theorem tail_base_within_box (text : string) (pos : BubblePosition)
    (shape : BubbleShape) (posX posY : option Q) :
  (0 <= canvas_width)%Z ->
  JsString.truthy (JsString.trim text) = true ->
  shape <> Thought ->
  let ops := drawBubble measureText canvas_width canvas_height
               text pos shape posX posY in
  exists b tl,
    boxOf ops = Some b /\ tailOf ops = Some tl
    /\ box_x b <= tail_x1 tl
    /\ tail_x2 tl <= box_x b + box_w b
    /\ tail_x1 tl <= tail_tipX tl <= tail_x2 tl.
Proof.
  intros Hcw Hshown Hshape ops.
  destruct (standard_bubble_readers measureText canvas_width canvas_height
              text pos shape posX posY Hshown Hshape) as (Hb & Ht & _).
  cbv zeta in Hb, Ht.
  pose proof (SCALE_nonneg canvas_width Hcw) as HS.
  do 2 eexists. split; [exact Hb|]. split; [exact Ht|].
  cbn [box_x box_w tail_x1 tail_x2 tail_tipX].
  pose proof (Q.le_max_r (textBlockWidth measureText canvas_width text
                          + PADDING canvas_width * 2)
                         (MIN_WIDTH canvas_width)) as Hmin.
  fold (bubbleWidth measureText canvas_width text) in Hmin.
  unfold MIN_WIDTH in Hmin. unfold tailSize.
  destruct (posIncludes pos "left"); repeat split; lra.
Qed.

(** The tail points away from the box: for a top anchor its base is on
    the bottom edge and its tip [8 * SCALE] lower, for a bottom anchor its
    base is on the top edge and its tip [8 * SCALE] higher. *)
Theorem tail_points_away (text : string) (pos : BubblePosition)
    (shape : BubbleShape) (posX posY : option Q) :
  JsString.truthy (JsString.trim text) = true ->
  shape <> Thought ->
  let ops := drawBubble measureText canvas_width canvas_height
               text pos shape posX posY in
  exists b tl,
    boxOf ops = Some b /\ tailOf ops = Some tl
    /\ (posIncludes pos "top" = true ->
          tail_baseY tl == box_y b + box_h b
          /\ tail_tipY tl == box_y b + box_h b + 8 * SCALE canvas_width)
    /\ (posIncludes pos "bottom" = true ->
          tail_baseY tl == box_y b
          /\ tail_tipY tl == box_y b - 8 * SCALE canvas_width).
Proof.
  intros Hshown Hshape ops.
  destruct (standard_bubble_readers measureText canvas_width canvas_height
              text pos shape posX posY Hshown Hshape) as (Hb & Ht & _).
  cbv zeta in Hb, Ht.
  do 2 eexists. split; [exact Hb|]. split; [exact Ht|].
  cbn [box_y box_h tail_baseY tail_tipY].
  destruct (posIncludes_cases pos) as [Htop _]. rewrite Htop.
  destruct (posIncludes pos "bottom"); cbn [negb];
    split; intro E; try discriminate E; split; reflexivity.
Qed.

(** X7.  Both dots of a thought bubble lie, with their radius, within the
    horizontal extent of the box. *)
Theorem dots_within_box (text : string) (pos : BubblePosition)
    (posX posY : option Q) :
  (0 <= canvas_width)%Z ->
  JsString.truthy (JsString.trim text) = true ->
  let ops := drawBubble measureText canvas_width canvas_height
               text pos Thought posX posY in
  exists b,
    boxOf ops = Some b
    /\ forall d, In d (dotsOf ops) ->
         box_x b <= dot_cx d - dot_r d
         /\ dot_cx d + dot_r d <= box_x b + box_w b.
Proof.
  intros Hcw Hshown ops.
  destruct (thought_bubble_readers measureText canvas_width canvas_height
              text pos posX posY Hshown) as (Hb & _ & _ & Hd).
  cbv zeta in Hb, Hd.
  pose proof (SCALE_nonneg canvas_width Hcw) as HS.
  eexists. split; [exact Hb|]. subst ops. rewrite Hd.
  cbn [box_x box_w].
  pose proof (Q.le_max_r (textBlockWidth measureText canvas_width text
                          + PADDING canvas_width * 2)
                         (MIN_WIDTH canvas_width)) as Hmin.
  fold (bubbleWidth measureText canvas_width text) in Hmin.
  unfold MIN_WIDTH in Hmin.
  intros d [<-|[<-|[]]]; cbn [dot_cx dot_r];
    destruct (posIncludes pos "right"); split; lra.
Qed.

End TailInBox.

Lemma tail_base_within_box_witness :
  let ops := drawBubble monospace 1024 1024 "Look out!" BottomRight Square
               (Some 55) (Some 70) in
  exists b tl,
    boxOf ops = Some b /\ tailOf ops = Some tl
    /\ box_x b <= tail_x1 tl
    /\ tail_x2 tl <= box_x b + box_w b
    /\ tail_x1 tl <= tail_tipX tl <= tail_x2 tl.
Proof.
  apply (tail_base_within_box monospace 1024 1024 "Look out!" BottomRight
           Square (Some 55) (Some 70)).
  - lia.
  - reflexivity.
  - discriminate.
Defined.

Lemma tail_points_away_witness :
  let ops := drawBubble monospace 1024 1024 "Look out!" BottomRight Square
               (Some 55) (Some 70) in
  exists b tl,
    boxOf ops = Some b /\ tailOf ops = Some tl
    /\ (posIncludes BottomRight "top" = true ->
          tail_baseY tl == box_y b + box_h b
          /\ tail_tipY tl == box_y b + box_h b + 8 * SCALE 1024)
    /\ (posIncludes BottomRight "bottom" = true ->
          tail_baseY tl == box_y b
          /\ tail_tipY tl == box_y b - 8 * SCALE 1024).
Proof.
  apply (tail_points_away monospace 1024 1024 "Look out!" BottomRight
           Square (Some 55) (Some 70)).
  - reflexivity.
  - discriminate.
Defined.

Lemma dots_within_box_witness :
  let ops := drawBubble monospace 1024 1024 "Hmm..." TopRight Thought
               (Some 55) (Some 5) in
  exists b,
    boxOf ops = Some b
    /\ forall d, In d (dotsOf ops) ->
         box_x b <= dot_cx d - dot_r d
         /\ dot_cx d + dot_r d <= box_x b + box_w b.
Proof.
  apply (dots_within_box monospace 1024 1024 "Hmm..." TopRight
           (Some 55) (Some 5)).
  - lia.
  - reflexivity.
Defined.

(** ** Raster compositor: the whole panel *)

Section PanelTrace.

Variable measureText : Z -> string -> Q.
Variables canvas_width canvas_height : Z.

Lemma countBoxes_app (a b : list DrawOp) :
  countBoxes (a ++ b) = (countBoxes a + countBoxes b)%nat.
Proof.
  induction a as [|op a IH]; [reflexivity|].
  destruct op; simpl; now rewrite IH.
Qed.

Lemma countBoxes_drawText (px : Z) (cx y lh : Q) (i : nat)
    (ls : list string) :
  countBoxes (drawText canvas_width px cx y lh i ls) = 0%nat.
Proof.
  revert i. induction ls as [|l ls IH]; intro i; simpl; [reflexivity|apply IH].
Qed.

Lemma countBoxes_drawBubble (text : string) (pos : BubblePosition)
    (shape : BubbleShape) (posX posY : option Q) :
  countBoxes (drawBubble measureText canvas_width canvas_height
                text pos shape posX posY)
  = if JsString.allWhiteSpace text then 0%nat else 1%nat.
Proof.
  destruct (JsString.allWhiteSpace text) eqn:E.
  - now rewrite drawBubble_skipped.
  - assert (Hs : JsString.truthy (JsString.trim text) = true).
    { destruct (JsString.truthy (JsString.trim text)) eqn:Et; [reflexivity|].
      apply JsStringFacts.trim_empty in Et. congruence. }
    rewrite drawBubble_shown by assumption. cbv zeta.
    cbn [countBoxes]. rewrite countBoxes_app, countBoxes_drawText.
    destruct shape; unfold drawTail, drawDots;
      destruct (posIncludes pos "bottom"); reflexivity.
Qed.

(** X8.  The trace of a panel starts with the image and ends with the
    attribution; between them it holds one bubble box per dialogue that is
    not made of white space only, so two at most. *)
Theorem drawPanel_boxes (panel : PanelData) :
  let ops := drawPanel measureText canvas_width canvas_height panel in
  hd_error ops = Some DrawImage
  /\ (exists front px x y,
        ops = (front ++ [Watermark px "@tipmarketolog" x y])%list)
  /\ countBoxes ops
     = ((if JsString.allWhiteSpace (char1Dialogue panel) then 0 else 1)
        + (if JsString.allWhiteSpace (char2Dialogue panel) then 0 else 1))%nat.
Proof.
  cbv zeta. unfold drawPanel.
  set (b1 := if JsString.truthy (char1Dialogue panel) then _ else _).
  set (b2 := if JsString.truthy (char2Dialogue panel) then _ else _).
  split; [reflexivity|]. split.
  - exists (DrawImage :: b1 ++ b2)%list. do 3 eexists.
    cbn [app]. now rewrite <- app_assoc.
  - assert (Hb : forall d pos shape posX posY,
              countBoxes (if JsString.truthy d
                          then drawBubble measureText canvas_width
                                 canvas_height d pos shape posX posY
                          else [])
              = if JsString.allWhiteSpace d then 0%nat else 1%nat).
    { intros d pos shape posX posY. destruct d; [reflexivity|].
      cbn [JsString.truthy]. apply countBoxes_drawBubble. }
    rewrite !countBoxes_app. subst b1 b2. rewrite !Hb.
    cbn [countBoxes]. lia.
Qed.

(** Evaluate [pos.includes(part)] where the position is known. *)
Ltac eval_posIncludes :=
  repeat match goal with
         | |- context [posIncludes ?p ?part] =>
             let b := eval vm_compute in (posIncludes p part) in
             change (posIncludes p part) with b
         end;
  cbv iota.

(** X9.  Where the overlay puts the tail of a standard bubble, the raster
    compositor draws it: under the box for the class [-bottom-2] and over
    it for [-top-2], [16 * SCALE] from the left edge for [left-4] and from
    the right edge for [right-4].  The raster call is the one [drawPanel]
    makes for the character. *)
Theorem renderers_agree_on_tail (text : string)
    (pos : option BubblePosition) (shape : option BubbleShape)
    (isChar1 : bool) (posX posY : option Q) :
  JsString.truthy (JsString.trim text) = true ->
  orDefault shape Rounded <> Thought ->
  let cls := getTailClass pos shape isChar1 in
  let ops := drawBubble measureText canvas_width canvas_height text
               (orDefault pos (if isChar1 then TopLeft else TopRight))
               (orDefault shape Rounded) posX posY in
  exists b tl,
    boxOf ops = Some b /\ tailOf ops = Some tl
    /\ ((JsString.includes cls "-bottom-2" = true
         /\ tail_baseY tl == box_y b + box_h b
         /\ tail_tipY tl == box_y b + box_h b + 8 * SCALE canvas_width)
        \/ (JsString.includes cls "-top-2" = true
            /\ tail_baseY tl == box_y b
            /\ tail_tipY tl == box_y b - 8 * SCALE canvas_width))
    /\ ((JsString.includes cls "left-4" = true
         /\ tail_x1 tl == box_x b + 16 * SCALE canvas_width)
        \/ (JsString.includes cls "right-4" = true
            /\ tail_x2 tl == box_x b + box_w b - 16 * SCALE canvas_width)).
Proof.
  intros Hshown Hshape cls ops.
  destruct (standard_bubble_readers measureText canvas_width canvas_height
              text (orDefault pos (if isChar1 then TopLeft else TopRight))
              (orDefault shape Rounded) posX posY Hshown Hshape)
    as (Hb & Ht & _).
  cbv zeta in Hb, Ht.
  do 2 eexists. split; [exact Hb|]. split; [exact Ht|].
  cbn [box_x box_y box_w box_h tail_x1 tail_x2 tail_baseY tail_tipY].
  subst cls. unfold getTailClass, tailSize.
  destruct (orDefault shape Rounded); [| |congruence];
    destruct (orDefault pos (if isChar1 then TopLeft else TopRight));
    eval_posIncludes;
    (split;
     [first [left; split; [reflexivity|split; reflexivity]
            |right; split; [reflexivity|split; reflexivity]]
     |first [left; split; [reflexivity|reflexivity]
            |right; split; [reflexivity|lra]]]).
Qed.

(** X10.  The stroke of the box is dashed in the raster compositor exactly when
    the overlay gives the box the class [border-dashed], and the corner
    radius is the one of the overlay class times [SCALE]: 2 for
    [rounded-sm], 12 for [rounded-xl], 32 for [rounded-[2rem]]. *)
Theorem renderers_agree_on_shape (text : string) (pos : BubblePosition)
    (shape : option BubbleShape) (posX posY : option Q) :
  JsString.truthy (JsString.trim text) = true ->
  let cls := getShapeClass shape in
  let ops := drawBubble measureText canvas_width canvas_height text pos
               (orDefault shape Rounded) posX posY in
  exists b dash,
    boxOf ops = Some b /\ dashOf ops = Some dash
    /\ (dash <> [] <-> JsString.includes cls "border-dashed" = true)
    /\ ((cls = "rounded-sm" /\ box_radius b == 2 * SCALE canvas_width)
        \/ (cls = "rounded-xl" /\ box_radius b == 12 * SCALE canvas_width)
        \/ (cls = "rounded-[2rem] border-dashed"
            /\ box_radius b == 32 * SCALE canvas_width)).
Proof.
  intros Hshown cls ops. subst ops cls.
  rewrite drawBubble_shown by assumption. cbv zeta. cbn [boxOf dashOf].
  do 2 eexists. split; [reflexivity|]. split; [reflexivity|].
  cbn [box_radius].
  destruct shape as [[]|]; cbn [orDefault getShapeClass lineDash radius]; split.
  - split; [congruence|discriminate].
  - right; left. split; reflexivity.
  - split; [congruence|discriminate].
  - left. split; reflexivity.
  - split; [reflexivity|discriminate].
  - right; right. split; reflexivity.
  - split; [congruence|discriminate].
  - right; left. split; reflexivity.
Qed.

End PanelTrace.

Lemma renderers_agree_on_tail_witness :
  let cls := getTailClass None (Some Square) false in
  let ops := drawBubble monospace 1024 1024 "Look out!" TopRight Square
               (Some 55) (Some 5) in
  exists b tl,
    boxOf ops = Some b /\ tailOf ops = Some tl
    /\ ((JsString.includes cls "-bottom-2" = true
         /\ tail_baseY tl == box_y b + box_h b
         /\ tail_tipY tl == box_y b + box_h b + 8 * SCALE 1024)
        \/ (JsString.includes cls "-top-2" = true
            /\ tail_baseY tl == box_y b
            /\ tail_tipY tl == box_y b - 8 * SCALE 1024))
    /\ ((JsString.includes cls "left-4" = true
         /\ tail_x1 tl == box_x b + 16 * SCALE 1024)
        \/ (JsString.includes cls "right-4" = true
            /\ tail_x2 tl == box_x b + box_w b - 16 * SCALE 1024)).
Proof.
  apply (renderers_agree_on_tail monospace 1024 1024 "Look out!" None
           (Some Square) false (Some 55) (Some 5)).
  - reflexivity.
  - discriminate.
Defined.

Lemma renderers_agree_on_shape_witness :
  let cls := getShapeClass (Some Thought) in
  let ops := drawBubble monospace 1024 1024 "Hmm..." TopLeft Thought
               (Some 5) (Some 5) in
  exists b dash,
    boxOf ops = Some b /\ dashOf ops = Some dash
    /\ (dash <> [] <-> JsString.includes cls "border-dashed" = true)
    /\ ((cls = "rounded-sm" /\ box_radius b == 2 * SCALE 1024)
        \/ (cls = "rounded-xl" /\ box_radius b == 12 * SCALE 1024)
        \/ (cls = "rounded-[2rem] border-dashed"
            /\ box_radius b == 32 * SCALE 1024)).
Proof.
  apply (renderers_agree_on_shape monospace 1024 1024 "Hmm..." TopLeft
           (Some Thought) (Some 5) (Some 5)).
  reflexivity.
Defined.

(** ** Overlay and live preview *)

(** X11.  In the overlay the cover patch sits where the tail is attached: both
    are hidden together, and otherwise the cover is on the bottom edge for
    a tail under the box and on the top edge for a tail over it, at the
    same side. *)
Theorem overlay_cover_follows_tail (pos : option BubblePosition)
    (shape : option BubbleShape) (isChar1 : bool) :
  let t := getTailClass pos shape isChar1 in
  let c := getTailCoverClass pos shape isChar1 in
  (t = "hidden" <-> c = "hidden")
  /\ (t = "hidden" <-> orDefault shape Rounded = Thought)
  /\ JsString.includes c "bottom-0" = JsString.includes t "-bottom-2"
  /\ JsString.includes c "top-0" = JsString.includes t "-top-2"
  /\ JsString.includes c "left-4" = JsString.includes t "left-4"
  /\ JsString.includes c "right-4" = JsString.includes t "right-4".
Proof.
  destruct pos as [[]|], shape as [[]|], isChar1; cbv zeta;
    (split; [split; intro H; first [reflexivity|discriminate H]|]);
    (split; [split; intro H; first [reflexivity|discriminate H]|]);
    repeat split.
Qed.

(** X12.  The live preview of the editor shows the bubbles the panel shows,
    position, classes, tail, cover and dots alike; the panel alone hides
    them while the image is loading. *)
Theorem preview_matches_panel (panel : PanelData) :
  ComicPanel_bubbles panel
  = if isLoading panel then [] else PanelEditor.preview_bubbles panel.
Proof.
  unfold ComicPanel_bubbles, PanelEditor.preview_bubbles.
  destruct (isLoading panel); reflexivity.
Qed.

(** ** Panel updates *)

Lemma mergePanel_id (p : PanelData) (u : PanelUpdates) :
  id (mergePanel p u) = id p /\ index (mergePanel p u) = index p.
Proof. split; reflexivity. Qed.

(** X13.  An update addressed to an id no panel has changes nothing. *)
Theorem updatePanel_unknown_id (panelId : string) (updates : PanelUpdates)
    (panels : list PanelData) :
  (forall p, In p panels -> id p <> panelId) ->
  updatePanel panelId updates panels = panels.
Proof.
  intro H. unfold updatePanel.
  rewrite <- (map_id panels) at 2. apply map_ext_in.
  intros p Hp. apply H in Hp. apply String.eqb_neq in Hp. now rewrite Hp.
Qed.

Lemma updatePanel_unknown_id_witness :
  updatePanel "panel-9" (quickPosUpdates BottomLeft true)
              (createPanels 1700000000000 3)
  = createPanels 1700000000000 3.
Proof.
  apply (updatePanel_unknown_id "panel-9" (quickPosUpdates BottomLeft true)
           (createPanels 1700000000000 3)).
  intros p Hp. simpl in Hp.
  destruct Hp as [<-|[<-|[<-|[]]]]; vm_compute; discriminate.
Defined.

(** An update keeps the panels in place: as many as before, with the ids
    and indices they had, in the same order. *)
Theorem updatePanel_keeps_ids (panelId : string) (updates : PanelUpdates)
    (panels : list PanelData) :
  map id (updatePanel panelId updates panels) = map id panels
  /\ map index (updatePanel panelId updates panels) = map index panels
  /\ List.length (updatePanel panelId updates panels) = List.length panels.
Proof.
  unfold updatePanel. rewrite !map_map, length_map.
  repeat split; apply map_ext; intro p;
    destruct (String.eqb (id p) panelId); reflexivity.
Qed.

(** X14.  When the ids are pairwise distinct, an update changes the one panel it
    addresses and no other. *)
Theorem updatePanel_one_panel (panelId : string) (updates : PanelUpdates)
    (panels : list PanelData) (n m : nat) (p q : PanelData) :
  NoDup (map id panels) ->
  nth_error panels n = Some p ->
  id p = panelId ->
  nth_error panels m = Some q ->
  m <> n ->
  nth_error (updatePanel panelId updates panels) n
  = Some (mergePanel p updates)
  /\ nth_error (updatePanel panelId updates panels) m = Some q.
Proof.
  intros Hnd Hn Hid Hm Hmn. unfold updatePanel.
  rewrite !nth_error_map, Hn, Hm. cbn [option_map].
  assert (E : String.eqb (id p) panelId = true) by now apply String.eqb_eq.
  rewrite E. split; [reflexivity|].
  destruct (String.eqb (id q) panelId) eqn:Eq; [|reflexivity].
  exfalso. apply String.eqb_eq in Eq. apply Hmn.
  assert (Hlt : (m < List.length (map id panels))%nat).
  { rewrite length_map. apply nth_error_Some. congruence. }
  apply (proj1 (NoDup_nth_error (map id panels)) Hnd m n Hlt).
  rewrite !nth_error_map, Hn, Hm. cbn [option_map]. congruence.
Qed.

(** ** Quick position, composed *)

(** X15.  Of two quick positions of the same bubble the last one wins; clicking
    a corner twice is clicking it once. *)
Theorem quick_position_last_wins (panelId : string)
    (pos1 pos2 : BubblePosition) (isChar1 : bool)
    (panels : list PanelData) :
  handleQuickPos panelId pos2 isChar1
    (handleQuickPos panelId pos1 isChar1 panels)
  = handleQuickPos panelId pos2 isChar1 panels.
Proof.
  unfold handleQuickPos, updatePanel. rewrite map_map.
  apply map_ext. intro p.
  destruct (String.eqb (id p) panelId) eqn:E.
  - cbn [id mergePanel]. rewrite E.
    destruct isChar1, pos1, pos2; reflexivity.
  - now rewrite E.
Qed.

(** X16.  A quick position of one bubble leaves the other bubble of the panel,
    both dialogues, both shapes and the image as they were. *)
Theorem quick_position_frame (panelId : string) (pos : BubblePosition)
    (isChar1 : bool) (panels : list PanelData) (n : nat) (p : PanelData) :
  nth_error panels n = Some p ->
  exists p',
    nth_error (handleQuickPos panelId pos isChar1 panels) n = Some p'
    /\ char1Dialogue p' = char1Dialogue p
    /\ char2Dialogue p' = char2Dialogue p
    /\ char1BubbleShape p' = char1BubbleShape p
    /\ char2BubbleShape p' = char2BubbleShape p
    /\ imageUrl p' = imageUrl p
    /\ isLoading p' = isLoading p
    /\ if isChar1
       then char2BubblePos p' = char2BubblePos p
            /\ char2BubbleX p' = char2BubbleX p
            /\ char2BubbleY p' = char2BubbleY p
       else char1BubblePos p' = char1BubblePos p
            /\ char1BubbleX p' = char1BubbleX p
            /\ char1BubbleY p' = char1BubbleY p.
Proof.
  intro Hn. unfold handleQuickPos, updatePanel.
  rewrite nth_error_map, Hn. cbn [option_map].
  eexists. split; [reflexivity|].
  destruct (String.eqb (id p) panelId), isChar1, pos; repeat split.
Qed.

Lemma quick_position_frame_witness :
  let p := {| id := "panel-7"; index := 0;
              char1Dialogue := "Hmm..."; char1BubblePos := Some BottomLeft;
              char1BubbleShape := Some Thought;
              char1BubbleX := Some 12; char1BubbleY := Some 80;
              char2Dialogue := "What?"; char2BubblePos := Some TopRight;
              char2BubbleShape := Some Square;
              char2BubbleX := Some 60; char2BubbleY := Some 10;
              imageUrl := Some "data:image/png;base64,iVBORw0KGgo=";
              isLoading := false |} in
  exists p',
    nth_error (handleQuickPos "panel-7" TopRight true [p]) 0 = Some p'
    /\ char1Dialogue p' = char1Dialogue p
    /\ char2Dialogue p' = char2Dialogue p
    /\ char1BubbleShape p' = char1BubbleShape p
    /\ char2BubbleShape p' = char2BubbleShape p
    /\ imageUrl p' = imageUrl p
    /\ isLoading p' = isLoading p
    /\ (char2BubblePos p' = char2BubblePos p
        /\ char2BubbleX p' = char2BubbleX p
        /\ char2BubbleY p' = char2BubbleY p).
Proof.
  intro p.
  apply (quick_position_frame "panel-7" TopRight true [p] 0 p).
  reflexivity.
Defined.

(** ** Clear *)

(** X17.  After Clear the panel addressed has no bubble left in the overlay, in
    the preview or in the exported image, while its image and the
    placements, shapes and anchors of both bubbles are kept. *)
Theorem clear_removes_bubbles (panelId : string) (panels : list PanelData)
    (n : nat) (p : PanelData) :
  nth_error panels n = Some p ->
  id p = panelId ->
  exists p',
    nth_error (PanelEditor.handleClear panelId panels) n = Some p'
    /\ ComicPanel_bubbles p' = []
    /\ PanelEditor.preview_bubbles p' = []
    /\ (forall measureText w h,
          bubbleOps (drawPanel measureText w h p') = [])
    /\ imageUrl p' = imageUrl p
    /\ (char1BubblePos p', char1BubbleShape p', char1BubbleX p',
        char1BubbleY p')
       = (char1BubblePos p, char1BubbleShape p, char1BubbleX p,
          char1BubbleY p)
    /\ (char2BubblePos p', char2BubbleShape p', char2BubbleX p',
        char2BubbleY p')
       = (char2BubblePos p, char2BubbleShape p, char2BubbleX p,
          char2BubbleY p).
Proof.
  intros Hn Hid. unfold PanelEditor.handleClear, updatePanel.
  rewrite nth_error_map, Hn. cbn [option_map].
  assert (E : String.eqb (id p) panelId = true) by now apply String.eqb_eq.
  rewrite E. eexists. split; [reflexivity|].
  split; [apply overlay_skips_empty_text; reflexivity|].
  split.
  { unfold PanelEditor.preview_bubbles. cbn.
    now destruct (hasImage _). }
  split; [intros; apply raster_skips_blank_text; reflexivity|].
  repeat split.
Qed.

Lemma clear_removes_bubbles_witness :
  let p := {| id := "panel-7"; index := 0;
              char1Dialogue := "Hmm..."; char1BubblePos := Some BottomLeft;
              char1BubbleShape := Some Thought;
              char1BubbleX := Some 12; char1BubbleY := Some 80;
              char2Dialogue := "What?"; char2BubblePos := Some TopRight;
              char2BubbleShape := Some Square;
              char2BubbleX := Some 60; char2BubbleY := Some 10;
              imageUrl := Some "data:image/png;base64,iVBORw0KGgo=";
              isLoading := false |} in
  exists p',
    nth_error (PanelEditor.handleClear "panel-7" [p]) 0 = Some p'
    /\ ComicPanel_bubbles p' = []
    /\ PanelEditor.preview_bubbles p' = []
    /\ (forall measureText w h,
          bubbleOps (drawPanel measureText w h p') = [])
    /\ imageUrl p' = imageUrl p
    /\ (char1BubblePos p', char1BubbleShape p', char1BubbleX p',
        char1BubbleY p')
       = (char1BubblePos p, char1BubbleShape p, char1BubbleX p,
          char1BubbleY p)
    /\ (char2BubblePos p', char2BubbleShape p', char2BubbleX p',
        char2BubbleY p')
       = (char2BubblePos p, char2BubbleShape p, char2BubbleX p,
          char2BubbleY p).
Proof.
  intro p.
  apply (clear_removes_bubbles "panel-7" [p] 0 p); reflexivity.
Defined.

(** ** Panels of the application state *)

Lemma string_app_inv_head (a b c : string) :
  (a ++ b = a ++ c)%string -> b = c.
Proof.
  induction a as [|ch a IH]; simpl; intro H; [assumption|].
  injection H as H. now apply IH.
Qed.

Lemma string_length_app (a b : string) :
  String.length (a ++ b) = (String.length a + String.length b)%nat.
Proof. induction a as [|ch a IH]; simpl; [reflexivity|now rewrite IH]. Qed.

Lemma string_app_inv_tail (a b c : string) :
  (a ++ c = b ++ c)%string -> a = b.
Proof.
  revert b. induction a as [|ch a IH]; intros [|ch' b] H; simpl in H.
  - reflexivity.
  - apply (f_equal String.length) in H. simpl in H.
    rewrite string_length_app in H. lia.
  - apply (f_equal String.length) in H. simpl in H.
    rewrite string_length_app in H. lia.
  - injection H as -> H. f_equal. now apply IH.
Qed.

(** Printing an integer loses nothing. *)
Lemma numberToString_inj (a b : Z) :
  numberToString a = numberToString b -> a = b.
Proof.
  unfold numberToString. intro H.
  apply (f_equal DecimalString.NilEmpty.int_of_string) in H.
  rewrite !DecimalString.NilEmpty.isi in H. injection H as H.
  apply (f_equal Z.of_int) in H. now rewrite !DecimalZ.of_to in H.
Qed.

Lemma freshId_inj (now : Z) (i j : nat) :
  ("panel-" ++ numberToString now ++ "-" ++ numberToString (Z.of_nat i)
   = "panel-" ++ numberToString now ++ "-" ++ numberToString (Z.of_nat j))%string
  -> i = j.
Proof.
  intro H. apply string_app_inv_head in H. apply string_app_inv_head in H.
  apply string_app_inv_head in H. apply numberToString_inj in H. lia.
Qed.

Lemma NoDup_map_injective {A B : Type} (f : A -> B) (l : list A) :
  (forall a b, f a = f b -> a = b) -> NoDup l -> NoDup (map f l).
Proof.
  intros Hinj Hnd. induction Hnd as [|x l Hx Hnd IH]; simpl; constructor.
  - intro Hin. apply in_map_iff in Hin. destruct Hin as (y & Hy & Hin).
    apply Hinj in Hy. now subst y.
  - exact IH.
Qed.

Lemma freshIds_NoDup (now : Z) (i n : nat) :
  NoDup (map (fun k => ("panel-" ++ numberToString now ++ "-"
                        ++ numberToString (Z.of_nat k))%string)
             (seq i n)).
Proof.
  apply NoDup_map_injective; [|apply seq_NoDup].
  intros a b. apply freshId_inj.
Qed.

Lemma mapi_from_length {A B : Type} (f : A -> nat -> B) (i : nat)
    (l : list A) :
  List.length (mapi_from f i l) = List.length l.
Proof.
  revert i. induction l as [|x l IH]; intro i; simpl; [reflexivity|].
  now rewrite IH.
Qed.

Lemma mapi_from_nth_error {A B : Type} (f : A -> nat -> B) (i n : nat)
    (l : list A) :
  nth_error (mapi_from f i l) n
  = option_map (fun x => f x (i + n)%nat) (nth_error l n).
Proof.
  revert i n. induction l as [|x l IH]; intros i [|n]; simpl;
    try reflexivity.
  - now rewrite Nat.add_0_r.
  - rewrite IH. now replace (S i + n)%nat with (i + S n)%nat by lia.
Qed.

Lemma mapi_from_map {A B C : Type} (g : B -> C) (f : A -> nat -> B)
    (h : nat -> C) (i : nat) (l : list A) :
  (forall x k, g (f x k) = h k) ->
  map g (mapi_from f i l) = map h (seq i (List.length l)).
Proof.
  intro H. revert i. induction l as [|x l IH]; intro i; simpl;
    [reflexivity|]. now rewrite H, IH.
Qed.

Lemma mapi_from_Forall {A B : Type} (P : B -> Prop) (f : A -> nat -> B)
    (i : nat) (l : list A) :
  (forall x k, P (f x k)) -> Forall P (mapi_from f i l).
Proof.
  intro H. revert i. induction l as [|x l IH]; intro i; simpl;
    constructor; [apply H|apply IH].
Qed.

Lemma createPanels_ids_NoDup (now : Z) (count : nat) :
  NoDup (map id (createPanels now count)).
Proof.
  unfold createPanels. rewrite map_map. apply freshIds_NoDup.
Qed.

(** X18.  Fresh panels: as many as asked for, numbered from 0, with ids that
    are pairwise distinct, no dialogue, no image, and the bubbles at the
    default corners (5, 5) and (55, 5). *)
Theorem createPanels_fresh (now : Z) (count : nat) :
  List.length (createPanels now count) = count
  /\ NoDup (map id (createPanels now count))
  /\ map index (createPanels now count) = map Z.of_nat (seq 0 count)
  /\ Forall (fun p =>
               char1Dialogue p = EmptyString /\ char2Dialogue p = EmptyString
               /\ imageUrl p = None
               /\ (char1BubblePos p, char1BubbleX p, char1BubbleY p)
                  = (Some TopLeft, Some 5, Some 5)
               /\ (char2BubblePos p, char2BubbleX p, char2BubbleY p)
                  = (Some TopRight, Some 55, Some 5))
            (createPanels now count).
Proof.
  unfold createPanels. rewrite length_map, length_seq, !map_map.
  split; [reflexivity|].
  split; [rewrite <- map_map; apply createPanels_ids_NoDup|].
  split; [reflexivity|].
  apply Forall_map, Forall_forall. intros i _. cbn. repeat split.
Qed.

(** ** A new script *)

Section Script.

Variable now : Z.
Variable script : list ScriptPanel.
Variable prev : list PanelData.

(** X19.  After a new script there are as many panels as the script has, each
    with the two dialogues of its script panel (the empty string for a
    missing one), and no panel has an image or is loading. *)
Theorem applyScript_follows_script :
  List.length (applyScript now script prev) = List.length script
  /\ (forall i sp,
        nth_error script i = Some sp ->
        exists p,
          nth_error (applyScript now script prev) i = Some p
          /\ char1Dialogue p = orEmpty (sp_char1Dialogue sp)
          /\ char2Dialogue p = orEmpty (sp_char2Dialogue sp))
  /\ Forall (fun p => imageUrl p = None /\ isLoading p = false)
            (applyScript now script prev).
Proof.
  unfold applyScript.
  destruct (List.length script =? List.length prev)%nat eqn:E; cbn [negb].
  - apply Nat.eqb_eq in E. split; [now rewrite mapi_from_length|]. split.
    + intros i sp Hi. rewrite mapi_from_nth_error.
      assert (Hlt : (i < List.length prev)%nat)
        by (rewrite <- E; apply nth_error_Some; congruence).
      destruct (nth_error prev i) as [p|] eqn:Ep;
        [|apply nth_error_None in Ep; lia].
      cbn [option_map Nat.add]. rewrite Hi.
      eexists. split; [reflexivity|]. split; reflexivity.
    + apply mapi_from_Forall. intros x k. split; reflexivity.
  - split; [now rewrite mapi_from_length|]. split.
    + intros i sp Hi. rewrite mapi_from_nth_error, Hi. cbn [option_map].
      eexists. split; [reflexivity|]. split; reflexivity.
    + apply mapi_from_Forall. intros x k. split; reflexivity.
Qed.

(** X20.  A script with as many panels as the state keeps every panel in place:
    its id, its index and the placement, anchor and shape of both
    bubbles. *)
Theorem applyScript_same_length_keeps :
  List.length script = List.length prev ->
  map id (applyScript now script prev) = map id prev
  /\ forall i p,
       nth_error prev i = Some p ->
       exists p',
         nth_error (applyScript now script prev) i = Some p'
         /\ index p' = index p
         /\ (char1BubblePos p', char1BubbleShape p', char1BubbleX p',
             char1BubbleY p')
            = (char1BubblePos p, char1BubbleShape p, char1BubbleX p,
               char1BubbleY p)
         /\ (char2BubblePos p', char2BubbleShape p', char2BubbleX p',
             char2BubbleY p')
            = (char2BubblePos p, char2BubbleShape p, char2BubbleX p,
               char2BubbleY p).
Proof.
  intro E. unfold applyScript.
  apply Nat.eqb_eq in E. rewrite E. cbn [negb]. split.
  - clear E. generalize 0%nat. induction prev as [|p l IH]; intro i; simpl;
      [reflexivity|]. now rewrite IH.
  - intros i p Hi. rewrite mapi_from_nth_error, Hi. cbn [option_map].
    eexists. split; [reflexivity|]. repeat split.
Qed.

(** X21.  A script with another number of panels replaces the panels by fresh
    ones: numbered from 0, with ids that are pairwise distinct and both
    bubbles back at the default corners and the rounded shape. *)
Theorem applyScript_other_length_resets :
  List.length script <> List.length prev ->
  NoDup (map id (applyScript now script prev))
  /\ map index (applyScript now script prev)
     = map Z.of_nat (seq 0 (List.length script))
  /\ Forall (fun p =>
               (char1BubblePos p, char1BubbleShape p, char1BubbleX p,
                char1BubbleY p)
               = (Some TopLeft, Some Rounded, Some 5, Some 5)
               /\ (char2BubblePos p, char2BubbleShape p, char2BubbleX p,
                   char2BubbleY p)
                  = (Some TopRight, Some Rounded, Some 55, Some 5))
            (applyScript now script prev).
Proof.
  intro E. unfold applyScript.
  apply Nat.eqb_neq in E. rewrite E. cbn [negb]. split; [|split].
  - erewrite mapi_from_map; [apply freshIds_NoDup|]. reflexivity.
  - erewrite mapi_from_map; reflexivity.
  - apply mapi_from_Forall. intros x k. split; reflexivity.
Qed.

End Script.

Lemma applyScript_same_length_keeps_witness :
  let p := {| id := "panel-7"; index := 0;
              char1Dialogue := "Hmm..."; char1BubblePos := Some BottomLeft;
              char1BubbleShape := Some Thought;
              char1BubbleX := Some 12; char1BubbleY := Some 80;
              char2Dialogue := "What?"; char2BubblePos := Some TopRight;
              char2BubbleShape := Some Square;
              char2BubbleX := Some 60; char2BubbleY := Some 10;
              imageUrl := Some "data:image/png;base64,iVBORw0KGgo=";
              isLoading := false |} in
  let script := [ mkScriptPanel (Some "A street") (Some "waves")
                    (Some "Hello!") (Some "nods") None ] in
  map id (applyScript 1700000000000 script [p]) = map id [p]
  /\ forall i q,
       nth_error [p] i = Some q ->
       exists p',
         nth_error (applyScript 1700000000000 script [p]) i = Some p'
         /\ index p' = index q
         /\ (char1BubblePos p', char1BubbleShape p', char1BubbleX p',
             char1BubbleY p')
            = (char1BubblePos q, char1BubbleShape q, char1BubbleX q,
               char1BubbleY q)
         /\ (char2BubblePos p', char2BubbleShape p', char2BubbleX p',
             char2BubbleY p')
            = (char2BubblePos q, char2BubbleShape q, char2BubbleX q,
               char2BubbleY q).
Proof.
  intros p script.
  apply (applyScript_same_length_keeps 1700000000000 script [p]).
  reflexivity.
Defined.

Lemma applyScript_other_length_resets_witness :
  let script := [ mkScriptPanel (Some "A street") (Some "waves")
                    (Some "Hello!") (Some "nods") None;
                  mkScriptPanel (Some "A street") None None
                    (Some "waves back") (Some "Hi.") ] in
  let prev := createPanels 1600000000000 3 in
  NoDup (map id (applyScript 1700000000000 script prev))
  /\ map index (applyScript 1700000000000 script prev)
     = map Z.of_nat (seq 0 (List.length script))
  /\ Forall (fun p =>
               (char1BubblePos p, char1BubbleShape p, char1BubbleX p,
                char1BubbleY p)
               = (Some TopLeft, Some Rounded, Some 5, Some 5)
               /\ (char2BubblePos p, char2BubbleShape p, char2BubbleX p,
                   char2BubbleY p)
                  = (Some TopRight, Some Rounded, Some 55, Some 5))
            (applyScript 1700000000000 script prev).
Proof.
  intros script prev.
  apply (applyScript_other_length_resets 1700000000000 script prev).
  simpl. lia.
Defined.

Lemma updatePanel_one_panel_witness :
  let panels := createPanels 1700000000000 2 in
  exists p q,
    nth_error panels 1 = Some p /\ nth_error panels 0 = Some q
    /\ nth_error (updatePanel (id p) (quickPosUpdates BottomLeft true) panels)
                 1
       = Some (mergePanel p (quickPosUpdates BottomLeft true))
    /\ nth_error (updatePanel (id p) (quickPosUpdates BottomLeft true) panels)
                 0
       = Some q.
Proof.
  intro panels. do 2 eexists.
  split; [reflexivity|]. split; [reflexivity|].
  apply (updatePanel_one_panel _ (quickPosUpdates BottomLeft true) panels
           1 0).
  - apply createPanels_ids_NoDup.
  - reflexivity.
  - reflexivity.
  - reflexivity.
  - lia.
Defined.

Lemma applyScript_no_images (now : Z) (script : list ScriptPanel)
    (prev : list PanelData) :
  Forall (fun p => hasImage p = false) (applyScript now script prev).
Proof.
  unfold applyScript.
  destruct (negb _); apply mapi_from_Forall; intros x k; reflexivity.
Qed.

(** ** Download all *)

Section DownloadAll.

Variable measureText : Z -> string -> Q.
Variable naturalSize : string -> Z * Z.

Lemma filter_length_zero {A : Type} (f : A -> bool) (l : list A) :
  (List.length (filter f l) =? 0)%nat = negb (existsb f l).
Proof.
  induction l as [|x l IH]; [reflexivity|]. simpl.
  destruct (f x); [reflexivity|exact IH].
Qed.

Lemma filter_NoDup_map {A B : Type} (g : A -> B) (f : A -> bool)
    (l : list A) :
  NoDup (map g l) -> NoDup (map g (filter f l)).
Proof.
  induction l as [|x l IH]; simpl; intro H; [constructor|].
  inversion H as [|? ? Hx Hnd]; subst.
  destruct (f x); [|now apply IH]. simpl. constructor; [|now apply IH].
  intro Hin. apply Hx. apply in_map_iff in Hin.
  destruct Hin as (y & Hy & Hin). apply filter_In in Hin.
  apply in_map_iff. exists y. tauto.
Qed.

(** What [handleDownloadAll] files: one entry per panel with an image. *)
Lemma handleDownloadAll_files (panels : list PanelData) :
  handleDownloadAll measureText naturalSize panels
  = if existsb hasImage panels
    then Some (map (fun p =>
                      (zipFileName p,
                       drawPanel measureText
                         (fst (naturalSize (orEmpty (imageUrl p))))
                         (snd (naturalSize (orEmpty (imageUrl p)))) p))
                   (filter hasImage panels))
    else None.
Proof.
  unfold handleDownloadAll. rewrite filter_length_zero.
  destruct (existsb hasImage panels); cbn [negb]; [|reflexivity].
  f_equal.
  assert (H : forall p, In p (filter hasImage panels) -> hasImage p = true)
    by (intros p Hp; now apply filter_In in Hp).
  induction (filter hasImage panels) as [|p l IH]; [reflexivity|].
  simpl. destruct (naturalSize (orEmpty (imageUrl p))) as [w h].
  unfold generateDownloadableImage. rewrite (H p) by now left.
  cbn [negb app fst snd]. f_equal. apply IH.
  intros q Hq. apply H. now right.
Qed.

Lemma zipFileName_inj (p q : PanelData) :
  zipFileName p = zipFileName q -> index p = index q.
Proof.
  unfold zipFileName. intro H. apply string_app_inv_head in H.
  apply string_app_inv_tail in H. apply numberToString_inj in H. lia.
Qed.


(** X23.  When the panels have pairwise distinct indices, as fresh panels have,
    the files of the archive have pairwise distinct names: no panel
    overwrites another. *)
Theorem download_names_distinct (panels : list PanelData)
    (files : list (string * list DrawOp)) :
  NoDup (map index panels) ->
  handleDownloadAll measureText naturalSize panels = Some files ->
  NoDup (map fst files).
Proof.
  intros Hnd H. rewrite handleDownloadAll_files in H.
  destruct (existsb hasImage panels); [|discriminate].
  injection H as <-. rewrite map_map. cbn [fst].
  apply (filter_NoDup_map index hasImage) in Hnd.
  induction (filter hasImage panels) as [|p l IH]; [constructor|].
  simpl in *. inversion Hnd as [|? ? Hx Hl]; subst.
  constructor; [|now apply IH].
  intro Hin. apply Hx. apply in_map_iff in Hin.
  destruct Hin as (q & Hq & Hin). apply zipFileName_inj in Hq.
  apply in_map_iff. exists q. split; [assumption|assumption].
Qed.

(** X24.  A new script discards every image: no panel shows a bubble, in the
    overlay or in the preview, and there is nothing to download, until
    images are generated again. *)
Theorem new_script_hides_bubbles (now : Z) (script : list ScriptPanel)
    (prev : list PanelData) :
  handleDownloadAll measureText naturalSize (applyScript now script prev)
  = None
  /\ Forall (fun p => ComicPanel_bubbles p = []
                      /\ PanelEditor.preview_bubbles p = []
                      /\ generateDownloadableImage measureText
                           (fst (naturalSize (orEmpty (imageUrl p))))
                           (snd (naturalSize (orEmpty (imageUrl p)))) p
                         = None)
            (applyScript now script prev).
Proof.
  pose proof (applyScript_no_images now script prev) as H.
  rewrite Forall_forall in H. split.
  - rewrite handleDownloadAll_files.
    destruct (existsb hasImage (applyScript now script prev)) eqn:E;
      [|reflexivity].
    apply existsb_exists in E. destruct E as (p & Hp & Hi).
    rewrite (H p Hp) in Hi. discriminate.
  - apply Forall_forall. intros p Hp. specialize (H p Hp).
    unfold ComicPanel_bubbles, PanelEditor.preview_bubbles,
      generateDownloadableImage.
    rewrite H, andb_false_r. repeat split.
Qed.

End DownloadAll.

Lemma download_names_distinct_witness :
  let panels :=
    map (fun p => mergePanel p
                    {| u_char1Dialogue := Some "Hello!";
                       u_char1BubblePos := None; u_char1BubbleShape := None;
                       u_char1BubbleX := None; u_char1BubbleY := None;
                       u_char2Dialogue := None;
                       u_char2BubblePos := None; u_char2BubbleShape := None;
                       u_char2BubbleX := None; u_char2BubbleY := None;
                       u_imageUrl := Some "data:image/png;base64,iVBORw0KGgo=";
                       u_isLoading := None |})
        (createPanels 1700000000000 2) in
  let files :=
    map (fun p => (zipFileName p, drawPanel monospace 1024 1024 p)) panels in
  NoDup (map fst files).
Proof.
  intros panels files.
  apply (download_names_distinct monospace (fun _ => (1024, 1024)%Z)
           panels files).
  - vm_compute. repeat constructor; simpl; intuition discriminate.
  - reflexivity.
Defined.

(** ** Default placements *)

Section DefaultPlacements.

Variable measureText : Z -> string -> Q.
Variables canvas_width canvas_height : Z.

(** X25.  With the horizontal defaults, 5 percent for character 1 and 55 percent
    for character 2, and dialogues whose words each fit the wrap width, the
    two boxes do not overlap horizontally and the second ends within the
    canvas. *)
Theorem default_bubbles_disjoint (text1 text2 : string)
    (pos1 pos2 : BubblePosition) (shape1 shape2 : BubbleShape)
    (y1 y2 : Q) :
  (0 < canvas_width)%Z ->
  JsString.truthy (JsString.trim text1) = true ->
  JsString.truthy (JsString.trim text2) = true ->
  (forall w, In w (JsString.split text1) ->
     measureText (fontPx text1) w
     <= maxBubbleWidth canvas_width - PADDING canvas_width * 2) ->
  (forall w, In w (JsString.split text2) ->
     measureText (fontPx text2) w
     <= maxBubbleWidth canvas_width - PADDING canvas_width * 2) ->
  exists b1 b2,
    boxOf (drawBubble measureText canvas_width canvas_height
             text1 pos1 shape1 (Some 5) (Some y1)) = Some b1
    /\ boxOf (drawBubble measureText canvas_width canvas_height
                text2 pos2 shape2 (Some 55) (Some y2)) = Some b2
    /\ box_x b1 + box_w b1 < box_x b2
    /\ box_x b2 + box_w b2 <= inject_Z canvas_width.
Proof.
  intros Hcw H1 H2 Hw1 Hw2.
  rewrite !boxOf_drawBubble by assumption.
  do 2 eexists. split; [reflexivity|]. split; [reflexivity|].
  cbn [box_x box_w bubbleXY fst].
  assert (Hle : (0 <= canvas_width)%Z) by lia.
  pose proof (bubbleWidth_within_cap measureText canvas_width text1 Hle Hw1).
  pose proof (bubbleWidth_within_cap measureText canvas_width text2 Hle Hw2).
  assert (Hpos : 0 < inject_Z canvas_width)
    by (change 0 with (inject_Z 0); now rewrite <- Zlt_Qlt).
  unfold Qdiv. change (/ 100) with (1 # 100). split; lra.
Qed.

End DefaultPlacements.

Lemma default_bubbles_disjoint_witness :
  exists b1 b2,
    boxOf (drawBubble monospace 1024 1024 "Hello there, friend!"
             TopLeft Rounded (Some 5) (Some 5)) = Some b1
    /\ boxOf (drawBubble monospace 1024 1024 "Look out!"
                TopRight Rounded (Some 55) (Some 5)) = Some b2
    /\ box_x b1 + box_w b1 < box_x b2
    /\ box_x b2 + box_w b2 <= inject_Z 1024.
Proof.
  apply (default_bubbles_disjoint monospace 1024 1024
           "Hello there, friend!" "Look out!" TopLeft TopRight
           Rounded Rounded 5 5).
  - lia.
  - reflexivity.
  - reflexivity.
  - intros w Hw. simpl in Hw.
    destruct Hw as [<-|[<-|[<-|[]]]]; vm_compute; discriminate.
  - intros w Hw. simpl in Hw.
    destruct Hw as [<-|[<-|[]]]; vm_compute; discriminate.
Defined.

(** ** Scene description of the image prompt *)

Lemma truthy_app_r (a b : string) :
  JsString.truthy b = true -> JsString.truthy (a ++ b) = true.
Proof. destruct a; simpl; [tauto|reflexivity]. Qed.

Lemma trim_eqb_empty (s : string) :
  String.eqb (JsString.trim s) EmptyString = JsString.allWhiteSpace s.
Proof.
  destruct (JsString.allWhiteSpace s) eqn:E.
  - apply JsStringFacts.trim_empty in E.
    destruct (JsString.trim s); [reflexivity|discriminate].
  - destruct (JsString.trim s) eqn:Et; [|reflexivity].
    assert (H : JsString.truthy (JsString.trim s) = false)
      by now rewrite Et.
    apply JsStringFacts.trim_empty in H. congruence.
Qed.

(** X26.  The scene description of the image prompt is never empty: a setting
    that is not blank comes last, after the global setting and a full stop
    when there is a global setting; a blank setting gives the global
    setting, or the stock background when that is empty too. *)
Theorem sceneDescription_never_empty (setting globalSetting : string) :
  JsString.truthy (sceneDescription setting globalSetting) = true
  /\ (JsString.allWhiteSpace setting = false ->
        sceneDescription setting globalSetting
        = ((if JsString.truthy globalSetting then globalSetting ++ ". "
            else EmptyString) ++ setting)%string)
  /\ (JsString.allWhiteSpace setting = true ->
        sceneDescription setting globalSetting
        = if JsString.truthy globalSetting then globalSetting
          else "Generic abstract background").
Proof.
  unfold sceneDescription. rewrite trim_eqb_empty.
  destruct (JsString.allWhiteSpace setting) eqn:E.
  - rewrite andb_false_r. split; [|split; [discriminate|reflexivity]].
    destruct globalSetting; reflexivity.
  - assert (Ht : JsString.truthy setting = true)
      by (destruct setting; [discriminate E|reflexivity]).
    rewrite Ht. cbn [andb negb].
    split; [now apply truthy_app_r|]. split; [reflexivity|discriminate].
Qed.

(** ** A word too long for the cap *)

Section LongWord.

Variable measureText : Z -> string -> Q.
Variables canvas_width canvas_height : Z.

(** X5.  A dialogue of one word wider than the wrap width is written on one
    line, unbroken, and the box grows around it past the 35 percent cap. *)
Theorem long_word_overflows (text : string) (pos : BubblePosition)
    (shape : BubbleShape) (posX posY : option Q) :
  (0 <= canvas_width)%Z ->
  JsString.truthy (JsString.trim text) = true ->
  JsString.split text = [text] ->
  maxBubbleWidth canvas_width - PADDING canvas_width * 2
  < measureText (fontPx text) text ->
  let ops := drawBubble measureText canvas_width canvas_height
               text pos shape posX posY in
  exists b,
    boxOf ops = Some b
    /\ map text_line (textsOf ops) = [text]
    /\ box_w b == measureText (fontPx text) text + 2 * PADDING canvas_width
    /\ inject_Z canvas_width * 0.35 < box_w b.
Proof.
  intros Hcw Hshown Hword Hlong ops. subst ops.
  rewrite boxOf_drawBubble, textsOf_drawBubble by assumption.
  assert (Hl : lines measureText canvas_width text = [text])
    by (unfold lines, getLines; now rewrite Hword).
  eexists. split; [reflexivity|]. rewrite Hl. cbn [box_w].
  split; [reflexivity|].
  pose proof (SCALE_nonneg canvas_width Hcw) as HS.
  pose proof (SCALE_unfold canvas_width) as HSu.
  assert (Hm : 0 < measureText (fontPx text) text)
    by (unfold maxBubbleWidth, PADDING in Hlong; lra).
  assert (Ht : textBlockWidth measureText canvas_width text
               = measureText (fontPx text) text).
  { unfold textBlockWidth. rewrite Hl. cbn [fold_left].
    apply Qltb_lt in Hm. now rewrite Hm. }
  unfold bubbleWidth. rewrite Ht.
  assert (Hmin : MIN_WIDTH canvas_width
                 <= measureText (fontPx text) text
                    + PADDING canvas_width * 2)
    by (unfold maxBubbleWidth, PADDING, MIN_WIDTH in *; lra).
  rewrite (Q.max_l _ _ Hmin).
  unfold maxBubbleWidth, PADDING in *. split; lra.
Qed.

End LongWord.

Lemma long_word_overflows_witness :
  let text := "Supercalifragilisticexpialidocious" in
  let ops := drawBubble monospace 1024 1024 text TopLeft Rounded
               (Some 5) (Some 5) in
  exists b,
    boxOf ops = Some b
    /\ map text_line (textsOf ops) = [text]
    /\ box_w b == monospace (fontPx text) text + 2 * PADDING 1024
    /\ inject_Z 1024 * 0.35 < box_w b.
Proof.
  intro text.
  apply (long_word_overflows monospace 1024 1024 text TopLeft Rounded
           (Some 5) (Some 5)).
  - lia.
  - reflexivity.
  - reflexivity.
  - vm_compute. reflexivity.
Defined.

(** ** Generation service: the retry loops *)

Module GeminiFacts.
Import GeminiService.

Section ScriptLoopFacts.

Variable Script : Type.
Variable JSON_parse : string -> Script + JsError.
Variable api : nat -> ScriptAnswer.

(** The loop never leaves through its condition: fuel beyond the attempts
    left changes nothing. *)
Lemma scriptLoop_more_fuel (n fuel attempts : nat) (pauses : list Z) :
  (5 <= attempts + fuel)%nat -> (attempts < 5)%nat ->
  scriptLoop Script JSON_parse api (fuel + n) attempts pauses
  = scriptLoop Script JSON_parse api fuel attempts pauses.
Proof.
  revert attempts pauses. induction fuel as [|fuel IH];
    intros attempts pauses Hsum Hlt; [lia|].
  cbn [Nat.add scriptLoop].
  destruct (scriptTry Script JSON_parse (api (S attempts))) as [v|e];
    [reflexivity|].
  destruct (isQuotaError e).
  - unfold scriptMaxAttempts.
    destruct (S attempts =? 5)%nat eqn:E; [reflexivity|].
    apply Nat.eqb_neq in E. apply IH; lia.
  - unfold scriptMaxAttempts.
    destruct (S attempts <? 5)%nat eqn:E.
    + apply Nat.ltb_lt in E.
      destruct (match status e with Some _ => _ | None => _ end);
        [|reflexivity].
      cbn [andb]. apply IH; lia.
    + now rewrite andb_false_r.
Qed.

Lemma scriptLoop_bounds (fuel attempts : nat) (pauses : list Z) :
  (attempts + fuel = 5)%nat -> (1 <= fuel)%nat ->
  let r := scriptLoop Script JSON_parse api fuel attempts pauses in
  (attempts < calls r <= 5)%nat
  /\ exists extra,
       waited r = (pauses ++ extra)%list
       /\ List.length extra = (calls r - attempts - 1)%nat
       /\ Forall (fun w => (3000 <= w <= 40000)%Z) extra
       /\ (totalWait extra
           <= 5000 * (20 - Z.of_nat attempts * (Z.of_nat attempts + 1)))%Z.
Proof.
  revert attempts pauses. induction fuel as [|fuel IH];
    intros attempts pauses Hsum Hfuel; [lia|].
  cbn [scriptLoop]. cbv zeta.
  assert (Hstop : forall out,
            let r := mkRun (R := Script) out (S attempts) pauses in
            (attempts < calls r <= 5)%nat
            /\ exists extra,
                 waited r = (pauses ++ extra)%list
                 /\ List.length extra = (calls r - attempts - 1)%nat
                 /\ Forall (fun w => (3000 <= w <= 40000)%Z) extra
                 /\ (totalWait extra
                     <= 5000 * (20 - Z.of_nat attempts
                                     * (Z.of_nat attempts + 1)))%Z).
  { intro out. cbn [calls waited]. split; [lia|]. exists [].
    rewrite app_nil_r. split; [reflexivity|].
    split; [cbn [List.length]; lia|].
    split; [constructor|]. cbn [totalWait fold_right]. nia. }
  assert (Hgo : forall w,
            (S attempts < 5)%nat ->
            (3000 <= w <= 10000 * Z.of_nat (S attempts))%Z ->
            let r := scriptLoop Script JSON_parse api fuel (S attempts)
                       (pauses ++ [w]) in
            (attempts < calls r <= 5)%nat
            /\ exists extra,
                 waited r = (pauses ++ extra)%list
                 /\ List.length extra = (calls r - attempts - 1)%nat
                 /\ Forall (fun w => (3000 <= w <= 40000)%Z) extra
                 /\ (totalWait extra
                     <= 5000 * (20 - Z.of_nat attempts
                                     * (Z.of_nat attempts + 1)))%Z).
  { intros w Hlt Hw.
    destruct (IH (S attempts) (pauses ++ [w])%list) as (Hc & extra & He & Hlen
                                                     & Hall & Htot);
      [lia|lia|].
    cbv zeta. split; [lia|]. exists (w :: extra).
    split; [now rewrite He, <- app_assoc|].
    split; [cbn [List.length]; lia|].
    split; [constructor; [lia|assumption]|].
    cbn [totalWait fold_right]. fold (totalWait extra). nia. }
  destruct (scriptTry Script JSON_parse (api (S attempts))) as [v|e];
    [apply Hstop|].
  unfold scriptMaxAttempts.
  destruct (isQuotaError e).
  - destruct (S attempts =? 5)%nat eqn:E; [apply Hstop|].
    apply Nat.eqb_neq in E. apply Hgo; lia.
  - destruct (S attempts <? 5)%nat eqn:E.
    + apply Nat.ltb_lt in E.
      destruct (match status e with Some _ => _ | None => _ end);
        [|apply Hstop].
      cbn [andb]. apply Hgo; lia.
    + rewrite andb_false_r. apply Hstop.
Qed.

(** X27.  Whatever the service answers, a script is asked for at least once and
    at most five times, with a pause of 3 to 40 seconds between two
    requests and 100 seconds of pauses at most in all; and the loop always
    ends inside its body, by returning or throwing, so that the [throw]
    after it is never reached. *)
Theorem script_loop_bounded :
  let r := generateComicScript Script JSON_parse api in
  (1 <= calls r <= 5)%nat
  /\ List.length (waited r) = (calls r - 1)%nat
  /\ Forall (fun w => (3000 <= w <= 40000)%Z) (waited r)
  /\ (totalWait (waited r) <= 100000)%Z
  /\ forall n,
       scriptLoop Script JSON_parse api (scriptMaxAttempts + n) 0 [] = r.
Proof.
  cbv zeta. unfold generateComicScript, scriptMaxAttempts.
  destruct (scriptLoop_bounds 5 0 []) as (Hc & extra & He & Hlen & Hall & Ht);
    [reflexivity|lia|].
  cbv zeta in *. cbn [app] in He. rewrite He.
  split; [lia|]. split; [lia|]. split; [assumption|]. split; [lia|].
  intro n. apply scriptLoop_more_fuel; lia.
Qed.

(** X28.  When every request is refused for quota, the fifth refusal ends the
    run with the quota message, after pauses of 10, 20, 30 and 40
    seconds. *)
Theorem script_quota_exhaustion :
  (forall k, exists e, api k = ScriptThrows e /\ isQuotaError e = true) ->
  generateComicScript Script JSON_parse api
  = mkRun (inr quotaExceeded) 5 [10000; 20000; 30000; 40000]%Z.
Proof.
  intro H. unfold generateComicScript, scriptMaxAttempts.
  assert (Hstep : forall fuel a pauses,
            scriptLoop Script JSON_parse api (S fuel) a pauses
            = if (S a =? 5)%nat
              then mkRun (inr quotaExceeded) (S a) pauses
              else scriptLoop Script JSON_parse api fuel (S a)
                     (pauses ++ [(10000 * Z.of_nat (S a))%Z])).
  { intros fuel a pauses. cbn [scriptLoop].
    destruct (H (S a)) as (e & -> & Hq). cbn [scriptTry]. now rewrite Hq. }
  rewrite !Hstep. reflexivity.
Qed.

End ScriptLoopFacts.

Lemma script_quota_exhaustion_witness :
  generateComicScript string (fun s => inl s)
    (fun _ => ScriptThrows
                (mkError (Some "429 Too Many Requests") (Some 429%Z)
                         "{}"))
  = mkRun (inr quotaExceeded) 5 [10000; 20000; 30000; 40000]%Z.
Proof.
  apply (script_quota_exhaustion string (fun s => inl s)
           (fun _ => ScriptThrows
                       (mkError (Some "429 Too Many Requests") (Some 429%Z)
                                "{}"))).
  intro k. eexists. split; reflexivity.
Defined.

Section ImageLoopFacts.

Variable api : nat -> ImageAnswer.

(** The only pause [try] itself makes. *)
Lemma imageTry_continue (a : nat) (answer : ImageAnswer) (w : Z) :
  imageTry a answer = TriedContinue w ->
  w = (2000 * Z.of_nat a)%Z /\ (a =? imageMaxAttempts)%nat = false.
Proof.
  unfold imageTry. destruct answer as [e|[c|]]; try discriminate.
  cbv zeta.
  destruct (if isString (finishReason c) "STOP" then _ else _);
    try discriminate.
  destruct (isOneOf (finishReason c) "SAFETY" "PROHIBITED_CONTENT");
    try discriminate.
  destruct (isString (finishReason c) "RECITATION"); try discriminate.
  destruct (JsString.truthy _ && _); try discriminate.
  destruct (a =? imageMaxAttempts)%nat; try discriminate.
  intro H. injection H as <-. split; reflexivity.
Qed.

Lemma imageLoop_more_fuel (n fuel attempts : nat) (pauses : list Z) :
  (8 <= attempts + fuel)%nat -> (attempts < 8)%nat ->
  imageLoop api (fuel + n) attempts pauses
  = imageLoop api fuel attempts pauses.
Proof.
  revert attempts pauses. induction fuel as [|fuel IH];
    intros attempts pauses Hsum Hlt; [lia|].
  cbn [Nat.add imageLoop].
  destruct (imageTry (S attempts) (api (S attempts))) as [url|e|w] eqn:Et.
  - reflexivity.
  - unfold imageMaxAttempts.
    destruct (isQuotaError e).
    + destruct (S attempts =? 8)%nat eqn:E; [reflexivity|].
      apply Nat.eqb_neq in E. apply IH; lia.
    + destruct (message e) as [msg|]; [|reflexivity].
      destruct (JsString.includes msg "blocked by safety"
                || JsString.includes msg "AI returned text");
        [reflexivity|].
      destruct (S attempts =? 8)%nat eqn:E; [reflexivity|].
      apply Nat.eqb_neq in E. apply IH; lia.
  - apply imageTry_continue in Et. destruct Et as [_ E].
    unfold imageMaxAttempts in E. apply Nat.eqb_neq in E. apply IH; lia.
Qed.

Lemma imageLoop_bounds (fuel attempts : nat) (pauses : list Z) :
  (attempts + fuel = 8)%nat -> (1 <= fuel)%nat ->
  let r := imageLoop api fuel attempts pauses in
  (attempts < calls r <= 8)%nat
  /\ exists extra,
       waited r = (pauses ++ extra)%list
       /\ List.length extra = (calls r - attempts - 1)%nat
       /\ Forall (fun w => (2000 <= w <= 50000)%Z) extra
       /\ (totalWait extra
           <= 15000 * (7 - Z.of_nat attempts)
              + 2500 * (56 - Z.of_nat attempts * (Z.of_nat attempts + 1)))%Z.
Proof.
  revert attempts pauses. induction fuel as [|fuel IH];
    intros attempts pauses Hsum Hfuel; [lia|].
  cbn [imageLoop]. cbv zeta.
  assert (Hstop : forall out,
            let r := mkRun (R := string) out (S attempts) pauses in
            (attempts < calls r <= 8)%nat
            /\ exists extra,
                 waited r = (pauses ++ extra)%list
                 /\ List.length extra = (calls r - attempts - 1)%nat
                 /\ Forall (fun w => (2000 <= w <= 50000)%Z) extra
                 /\ (totalWait extra
                     <= 15000 * (7 - Z.of_nat attempts)
                        + 2500 * (56 - Z.of_nat attempts
                                       * (Z.of_nat attempts + 1)))%Z).
  { intro out. cbn [calls waited]. split; [lia|]. exists [].
    rewrite app_nil_r. split; [reflexivity|].
    split; [cbn [List.length]; lia|].
    split; [constructor|]. cbn [totalWait fold_right]. nia. }
  assert (Hgo : forall w,
            (S attempts < 8)%nat ->
            (2000 <= w <= 15000 + Z.of_nat (S attempts) * 5000)%Z ->
            let r := imageLoop api fuel (S attempts) (pauses ++ [w]) in
            (attempts < calls r <= 8)%nat
            /\ exists extra,
                 waited r = (pauses ++ extra)%list
                 /\ List.length extra = (calls r - attempts - 1)%nat
                 /\ Forall (fun w => (2000 <= w <= 50000)%Z) extra
                 /\ (totalWait extra
                     <= 15000 * (7 - Z.of_nat attempts)
                        + 2500 * (56 - Z.of_nat attempts
                                       * (Z.of_nat attempts + 1)))%Z).
  { intros w Hlt Hw.
    destruct (IH (S attempts) (pauses ++ [w])%list)
      as (Hc & extra & He & Hlen & Hall & Htot); [lia|lia|].
    cbv zeta. split; [lia|]. exists (w :: extra).
    split; [now rewrite He, <- app_assoc|].
    split; [cbn [List.length]; lia|].
    split; [constructor; [lia|assumption]|].
    cbn [totalWait fold_right]. fold (totalWait extra). nia. }
  destruct (imageTry (S attempts) (api (S attempts))) as [url|e|w] eqn:Et.
  - apply Hstop.
  - unfold imageMaxAttempts.
    destruct (isQuotaError e).
    + destruct (S attempts =? 8)%nat eqn:E; [apply Hstop|].
      apply Nat.eqb_neq in E. apply Hgo; lia.
    + destruct (message e) as [msg|]; [|apply Hstop].
      destruct (JsString.includes msg "blocked by safety"
                || JsString.includes msg "AI returned text");
        [apply Hstop|].
      destruct (S attempts =? 8)%nat eqn:E; [apply Hstop|].
      apply Nat.eqb_neq in E. apply Hgo; lia.
  - apply imageTry_continue in Et. destruct Et as [-> E].
    unfold imageMaxAttempts in E. apply Nat.eqb_neq in E. apply Hgo; lia.
Qed.

(** X29.  Whatever the service answers, an image is asked for at least once and
    at most eight times, with a pause of 2 to 50 seconds between two
    requests and 245 seconds of pauses at most in all; and the loop always
    ends inside its body, so that the [throw] after it is never
    reached. *)
Theorem image_loop_bounded :
  let r := generatePanelImage api in
  (1 <= calls r <= 8)%nat
  /\ List.length (waited r) = (calls r - 1)%nat
  /\ Forall (fun w => (2000 <= w <= 50000)%Z) (waited r)
  /\ (totalWait (waited r) <= 245000)%Z
  /\ forall n, imageLoop api (imageMaxAttempts + n) 0 [] = r.
Proof.
  cbv zeta. unfold generatePanelImage, imageMaxAttempts.
  destruct (imageLoop_bounds 8 0 []) as (Hc & extra & He & Hlen & Hall & Ht);
    [reflexivity|lia|].
  cbv zeta in *. cbn [app] in He. rewrite He.
  split; [lia|]. split; [lia|]. split; [assumption|]. split; [lia|].
  intro n. apply imageLoop_more_fuel; lia.
Qed.

(** X30.  A candidate stopped for recitation is not given up at once, as one
    stopped for safety is: the request is sent again, eight times in all
    when the answer stays the same, with pauses of 2 to 14 seconds, before
    the recitation error is thrown. *)
Theorem image_recitation_retried :
  (forall k, exists ps,
     api k = ImageResponds (Some (mkCandidate (Some "RECITATION") ps))) ->
  generatePanelImage api
  = mkRun (inr (newError "Image generation blocked due to potential copyright/recitation."))
          8 [2000; 4000; 6000; 8000; 10000; 12000; 14000]%Z.
Proof.
  intro H. unfold generatePanelImage, imageMaxAttempts.
  assert (Hstep : forall fuel a pauses,
            imageLoop api (S fuel) a pauses
            = if (S a =? 8)%nat
              then mkRun (inr (newError "Image generation blocked due to potential copyright/recitation."))
                         (S a) pauses
              else imageLoop api fuel (S a)
                     (pauses ++ [(2000 * Z.of_nat (S a))%Z])).
  { intros fuel a pauses. cbn [imageLoop].
    destruct (H (S a)) as (ps & ->). reflexivity. }
  rewrite !Hstep. reflexivity.
Qed.

(** A candidate stopped for safety ends the run at once. *)
Lemma image_safety_immediate (ps : option (list Part)) :
  api 1%nat = ImageResponds (Some (mkCandidate (Some "SAFETY") ps)) ->
  generatePanelImage api
  = mkRun (inr (newError "Image generation blocked by safety filters. Try adjusting the prompt or character description."))
          1 [].
Proof.
  intro H. unfold generatePanelImage, imageMaxAttempts.
  cbn [imageLoop]. rewrite H. reflexivity.
Qed.

End ImageLoopFacts.

Lemma image_recitation_retried_witness :
  generatePanelImage
    (fun _ => ImageResponds (Some (mkCandidate (Some "RECITATION") None)))
  = mkRun (inr (newError "Image generation blocked due to potential copyright/recitation."))
          8 [2000; 4000; 6000; 8000; 10000; 12000; 14000]%Z.
Proof.
  apply (image_recitation_retried
           (fun _ => ImageResponds
                       (Some (mkCandidate (Some "RECITATION") None)))).
  intro k. eexists. reflexivity.
Defined.

End GeminiFacts.
